(** * FocusGuard: the presence-driven focus timer of [deep_work_timer.py]

    The development embeds the countdown state of [TimerWindow], the
    application state of [DeepWorkTimer], the session start
    ([start_timer]), the one-second countdown callback ([update_timer]) and
    the body of the background polling loop ([face_detection_loop]).

    Conventions of the embedding.
    - Python integers are [Z]; the entries of the rectangles returned by the
      cascade classifier are 32-bit signed integers, so their products wrap
      ([int32_mul]).
    - Wall-clock readings ([time.time()]) and the confidence ratio are
      idealised as exact rationals ([Q]); rounding of binary floating point
      is not modelled.
    - Calls into the GUI toolkit, the thread library and the timer window
      are recorded as a list of [Effect]s next to the new state.
    - An attribute access on [None] ends the computation with
      [Raise AttributeError]. *)

From Stdlib Require Import ZArith QArith Qminmax List String Ascii Bool Lia Lqa.
From Stdlib Require DecimalString.
Import ListNotations.

Open Scope Z_scope.

(** ** Exceptions *)

Inductive exn : Type :=
| AttributeError
| ValueError.

Inductive result (A : Type) : Type :=
| Ok (a : A)
| Raise (e : exn).

Arguments Ok {A} a.
Arguments Raise {A} e.

Definition bind {A B : Type} (m : result A) (k : A -> result B) : result B :=
  match m with
  | Ok a => k a
  | Raise e => Raise e
  end.

Notation "x <- m ;; k" := (bind m (fun x => k))
  (at level 61, m at next level, right associativity).

(** ** TimerWindow: the countdown state (lines 105-109, 140-154) *)

Module TimerWindow.

Record t : Type := mk {
  total_seconds : Z;
  remaining_seconds : Z;
  is_paused : bool;
  is_running : bool
}.

(** [__init__], the "Timer state" block. *)
Definition init (total : Z) : t :=
  {| total_seconds := total;
     remaining_seconds := total;
     is_paused := false;
     is_running := true |}.

Definition pause (w : t) : t :=
  {| total_seconds := total_seconds w;
     remaining_seconds := remaining_seconds w;
     is_paused := true;
     is_running := is_running w |}.

Definition resume (w : t) : t :=
  {| total_seconds := total_seconds w;
     remaining_seconds := remaining_seconds w;
     is_paused := false;
     is_running := is_running w |}.

(** [if not self.is_paused and self.remaining_seconds > 0:
       self.remaining_seconds -= 1] *)
Definition tick (w : t) : t :=
  if negb (is_paused w) && (remaining_seconds w >? 0) then
    {| total_seconds := total_seconds w;
       remaining_seconds := remaining_seconds w - 1;
       is_paused := is_paused w;
       is_running := is_running w |}
  else w.

(** The text [update_display] writes into the label: hours, minutes,
    seconds of [remaining_seconds]. *)
Definition display (w : t) : Z * Z * Z :=
  (remaining_seconds w / 3600,
   (remaining_seconds w mod 3600) / 60,
   remaining_seconds w mod 60).

End TimerWindow.

(** The three methods a caller can invoke on the countdown. *)
Inductive TimerOp : Type :=
| OpTick
| OpPause
| OpResume.

Definition apply_op (op : TimerOp) (w : TimerWindow.t) : TimerWindow.t :=
  match op with
  | OpTick => TimerWindow.tick w
  | OpPause => TimerWindow.pause w
  | OpResume => TimerWindow.resume w
  end.

(** ** Frames, detected faces and the confidence heuristic (lines 357-377) *)

(** [frame.shape[0]] and [frame.shape[1]] of a frame that was read
    successfully: both are positive. *)
Record Frame : Type := {
  shape0 : positive;
  shape1 : positive
}.

(** One row [x, y, w, h] of the array returned by [detectMultiScale]. *)
Record Rect : Type := {
  rect_x : Z;
  rect_y : Z;
  rect_w : Z;
  rect_h : Z
}.

(** Reduction of an integer to the signed 32-bit range. *)
Definition wrap32 (z : Z) : Z :=
  (z + 2 ^ 31) mod 2 ^ 32 - 2 ^ 31.

Definition int32_mul (a b : Z) : Z := wrap32 (a * b).

(** [lambda f: f[2] * f[3]] *)
Definition area_key (f : Rect) : Z := int32_mul (rect_w f) (rect_h f).

(** Python's [max(iterable, key=...)]: the running best is replaced only by
    an element with a strictly larger key, so the first of several maximal
    elements is returned; [ValueError] on an empty iterable. *)
Definition keep_larger {A : Type} (key : A -> Z) (best y : A) : A :=
  if key y >? key best then y else best.

Definition py_max_by {A : Type} (key : A -> Z) (l : list A) : result A :=
  match l with
  | [] => Raise ValueError
  | x :: xs => Ok (fold_left (keep_larger key) xs x)
  end.

(** Python's [min(a, b)]: [b] when [b < a], otherwise [a]. *)
Definition py_min (a b : Q) : Q :=
  if Qle_bool a b then a else b.

Definition frame_area (fr : Frame) : Z :=
  Zpos (shape0 fr) * Zpos (shape1 fr).

(** [min(100, (face_area / frame_area) * 1000)] *)
Definition confidence_of (face_area : Z) (fr : Frame) : Q :=
  py_min 100 ((inject_Z face_area / inject_Z (frame_area fr)) * 1000)%Q.

(** Lines 357-364: the confidence of a frame in which [faces] were found. *)
Definition confidence (fr : Frame) (faces : list Rect) : result Q :=
  largest_face <- py_max_by area_key faces ;;
  Ok (confidence_of (area_key largest_face) fr).

(** Lines 357-377: the verdict [face_present] for one frame. *)
Definition face_present (fr : Frame) (faces : list Rect) : result bool :=
  if (Z.of_nat (List.length faces) >? 0) then
    c <- confidence fr faces ;;
    Ok (Qle_bool 30 c)
  else Ok false.

(** ** DeepWorkTimer: the application state (lines 167-179) *)

(** [cv2.VideoCapture(index)]: the handle; whether the device is open is
    answered by the environment each time [isOpened()] is asked. *)
Record VideoCapture : Type := {
  device : Z
}.

Inductive Thread : Type :=
| FaceDetectionThread.

Record DeepWorkTimer : Type := {
  root_shown : bool;                       (* the input window, until [root.withdraw()] *)
  timer_window : option TimerWindow.t;
  camera : option VideoCapture;
  face_detection_thread : option Thread;
  timer_thread : option Thread;
  stop_threads : bool;
  face_detected : bool;
  no_face_start_time : option Q;
  last_state : string;
  show_webcam_preview : bool
}.

(** [DeepWorkTimer.__init__] *)
Definition init : DeepWorkTimer :=
  {| root_shown := true;
     timer_window := None;
     camera := None;
     face_detection_thread := None;
     timer_thread := None;
     stop_threads := false;
     face_detected := true;
     no_face_start_time := None;
     last_state := "running";
     show_webcam_preview := false |}.

Definition set_root_shown (app : DeepWorkTimer) (b : bool) : DeepWorkTimer :=
  {| root_shown := b;
     timer_window := timer_window app;
     camera := camera app;
     face_detection_thread := face_detection_thread app;
     timer_thread := timer_thread app;
     stop_threads := stop_threads app;
     face_detected := face_detected app;
     no_face_start_time := no_face_start_time app;
     last_state := last_state app;
     show_webcam_preview := show_webcam_preview app |}.

Definition set_timer_window (app : DeepWorkTimer) (w : option TimerWindow.t)
  : DeepWorkTimer :=
  {| root_shown := root_shown app;
     timer_window := w;
     camera := camera app;
     face_detection_thread := face_detection_thread app;
     timer_thread := timer_thread app;
     stop_threads := stop_threads app;
     face_detected := face_detected app;
     no_face_start_time := no_face_start_time app;
     last_state := last_state app;
     show_webcam_preview := show_webcam_preview app |}.

Definition set_camera (app : DeepWorkTimer) (c : option VideoCapture)
  : DeepWorkTimer :=
  {| root_shown := root_shown app;
     timer_window := timer_window app;
     camera := c;
     face_detection_thread := face_detection_thread app;
     timer_thread := timer_thread app;
     stop_threads := stop_threads app;
     face_detected := face_detected app;
     no_face_start_time := no_face_start_time app;
     last_state := last_state app;
     show_webcam_preview := show_webcam_preview app |}.

Definition set_face_detection_thread (app : DeepWorkTimer) (th : option Thread)
  : DeepWorkTimer :=
  {| root_shown := root_shown app;
     timer_window := timer_window app;
     camera := camera app;
     face_detection_thread := th;
     timer_thread := timer_thread app;
     stop_threads := stop_threads app;
     face_detected := face_detected app;
     no_face_start_time := no_face_start_time app;
     last_state := last_state app;
     show_webcam_preview := show_webcam_preview app |}.

Definition set_stop_threads (app : DeepWorkTimer) (b : bool) : DeepWorkTimer :=
  {| root_shown := root_shown app;
     timer_window := timer_window app;
     camera := camera app;
     face_detection_thread := face_detection_thread app;
     timer_thread := timer_thread app;
     stop_threads := b;
     face_detected := face_detected app;
     no_face_start_time := no_face_start_time app;
     last_state := last_state app;
     show_webcam_preview := show_webcam_preview app |}.

Definition set_no_face_start_time (app : DeepWorkTimer) (t : option Q)
  : DeepWorkTimer :=
  {| root_shown := root_shown app;
     timer_window := timer_window app;
     camera := camera app;
     face_detection_thread := face_detection_thread app;
     timer_thread := timer_thread app;
     stop_threads := stop_threads app;
     face_detected := face_detected app;
     no_face_start_time := t;
     last_state := last_state app;
     show_webcam_preview := show_webcam_preview app |}.

Definition set_last_state (app : DeepWorkTimer) (s : string) : DeepWorkTimer :=
  {| root_shown := root_shown app;
     timer_window := timer_window app;
     camera := camera app;
     face_detection_thread := face_detection_thread app;
     timer_thread := timer_thread app;
     stop_threads := stop_threads app;
     face_detected := face_detected app;
     no_face_start_time := no_face_start_time app;
     last_state := s;
     show_webcam_preview := show_webcam_preview app |}.

(** ** Side effects *)

Inductive Callback : Type :=
| NotificationPopup (message : string)
| UpdateTimer.

Inductive Effect : Type :=
| CallPause                              (* [self.timer_window.pause()] *)
| CallResume                             (* [self.timer_window.resume()] *)
| After (ms : Z) (cb : Callback)         (* [self.root.after(ms, cb)] *)
| ShowError (message : string)           (* [self.show_error(message)] *)
| ThreadStart                            (* [self.face_detection_thread.start()] *)
| ShowCompletion.                        (* [self.show_completion()] *)

Definition newline : string := String (ascii_of_nat 10) EmptyString.

Definition paused_message : string :=
  ("⏸️ Timer Paused" ++ newline ++ "Face not detected")%string.

Definition resumed_message : string :=
  ("▶️ Timer Resumed" ++ newline ++ "Welcome back!")%string.

(** ** update_timer (lines 301-316) *)

Definition update_timer (app : DeepWorkTimer) : DeepWorkTimer * list Effect :=
  if stop_threads app then (app, [])
  else
    match timer_window app with
    | None => (app, [])
    | Some w =>
        let w1 := if negb (TimerWindow.is_paused w) then TimerWindow.tick w else w in
        let app1 := set_timer_window app (Some w1) in
        if TimerWindow.remaining_seconds w1 <=? 0 then
          (set_stop_threads app1 true, [ShowCompletion])
        else
          (app1, [After 1000 UpdateTimer])
    end.

(** ** start_timer (lines 267-298)

    [entry] is the outcome of [int(self.time_entry.get())] ([None] when it
    raises [ValueError]); [camera_opens] is what [self.camera.isOpened()]
    answers right after the capture object is created. *)

Definition start_timer (app : DeepWorkTimer) (entry : option Z) (camera_opens : bool)
  : DeepWorkTimer * list Effect :=
  match entry with
  | None => (app, [ShowError "Please enter a valid number"])
  | Some minutes =>
      if (minutes <=? 0) || (minutes >? 999) then
        (app, [ShowError "Please enter a value between 1 and 999 minutes"])
      else
        let total_seconds := minutes * 60 in
        let app1 := set_root_shown app false in
        let app2 := set_timer_window app1 (Some (TimerWindow.init total_seconds)) in
        let app3 := set_camera app2 (Some {| device := 0 |}) in
        if negb camera_opens then
          (app3, [ShowError "Could not access webcam"])
        else
          let app4 := set_stop_threads app3 false in
          let app5 := set_face_detection_thread app4 (Some FaceDetectionThread) in
          let '(app6, effs) := update_timer app5 in
          (app6, ThreadStart :: effs)
  end.

(** ** face_detection_loop (lines 338-419) *)

(** One presence sample: the frame that was read, the rectangles the
    classifier found in it, and the clock reading taken for it. *)
Record Sample : Type := {
  frame : Frame;
  faces : list Rect;
  current_time : Q
}.

(** What one polling cycle meets: a camera that is not open, a read that
    fails ([ret] false), or a frame. *)
Inductive Poll : Type :=
| NotOpened
| ReadFailed
| Grabbed (s : Sample).

(** Lines 395-415: the reaction to the verdict of one sample. *)
Definition handle_presence (app : DeepWorkTimer) (present : bool) (now : Q)
  : result (DeepWorkTimer * list Effect) :=
  if negb present then
    match no_face_start_time app with
    | None => Ok (set_no_face_start_time app (Some now), [])
    | Some start =>
        if Qle_bool 5 (now - start) then
          match timer_window app with
          | None => Raise AttributeError
          | Some w =>
              if negb (TimerWindow.is_paused w) then
                let app1 := set_timer_window app (Some (TimerWindow.pause w)) in
                if negb (String.eqb (last_state app1) "paused") then
                  Ok (set_last_state app1 "paused",
                      [CallPause; After 0 (NotificationPopup paused_message)])
                else Ok (app1, [CallPause])
              else Ok (app, [])
          end
        else Ok (app, [])
    end
  else
    let app1 :=
      match no_face_start_time app with
      | Some _ => set_no_face_start_time app None
      | None => app
      end in
    match timer_window app1 with
    | None => Raise AttributeError
    | Some w =>
        if TimerWindow.is_paused w then
          let app2 := set_timer_window app1 (Some (TimerWindow.resume w)) in
          if negb (String.eqb (last_state app2) "running") then
            Ok (set_last_state app2 "running",
                [CallResume; After 0 (NotificationPopup resumed_message)])
          else Ok (app2, [CallResume])
        else Ok (app1, [])
    end.

(** The development preview (lines 383-390) only draws, but it reads
    [self.timer_window.is_paused]. *)
Definition preview (app : DeepWorkTimer) : result unit :=
  if show_webcam_preview app then
    match timer_window app with
    | None => Raise AttributeError
    | Some _ => Ok tt
    end
  else Ok tt.

(** One pass through the body of the [while] loop. *)
Definition loop_body (app : DeepWorkTimer) (p : Poll)
  : result (DeepWorkTimer * list Effect) :=
  match camera app with
  | None => Ok (app, [])
  | Some _ =>
      match p with
      | NotOpened => Ok (app, [])
      | ReadFailed => Ok (app, [])
      | Grabbed s =>
          present <- face_present (frame s) (faces s) ;;
          _ <- preview app ;;
          handle_presence app present (current_time s)
      end
  end.

(** The loop over the polling cycles the environment provides: the state it
    ends in and, per executed cycle, the effects of that cycle. *)
Fixpoint face_detection_loop (app : DeepWorkTimer) (polls : list Poll)
  : result (DeepWorkTimer * list (list Effect)) :=
  match polls with
  | [] => Ok (app, [])
  | p :: rest =>
      if stop_threads app then Ok (app, [])
      else
        r <- loop_body app p ;;
        r' <- face_detection_loop (fst r) rest ;;
        Ok (fst r', snd r :: snd r')
  end.

(** The action of the presence state machine carried by the effects of one
    cycle. *)
Inductive Action : Type :=
| Pause
| Resume.

Fixpoint action_of (effs : list Effect) : option Action :=
  match effs with
  | [] => None
  | CallPause :: _ => Some Pause
  | CallResume :: _ => Some Resume
  | _ :: rest => action_of rest
  end.

Definition actions (trace : list (list Effect)) : list (option Action) :=
  map action_of trace.

Definition is_call_pause (e : Effect) : bool :=
  match e with CallPause => true | _ => false end.

Definition is_call_resume (e : Effect) : bool :=
  match e with CallResume => true | _ => false end.

Definition is_popup (e : Effect) : bool :=
  match e with After _ (NotificationPopup _) => true | _ => false end.

Definition count (p : Effect -> bool) (effs : list Effect) : nat :=
  List.length (filter p effs).

(** ** The session: polling cycles interleaved with countdown callbacks *)

Inductive Event : Type :=
| Cycle (p : Poll)        (* the detection thread runs one pass of its loop *)
| TimerFires.             (* the main thread runs [update_timer] *)

(** A polling cycle runs only in a started thread whose loop has not seen
    [stop_threads]; [update_timer] guards itself. *)
Definition step (app : DeepWorkTimer) (e : Event)
  : result (DeepWorkTimer * list Effect) :=
  match e with
  | Cycle p =>
      match face_detection_thread app with
      | None => Ok (app, [])
      | Some _ => if stop_threads app then Ok (app, []) else loop_body app p
      end
  | TimerFires => Ok (update_timer app)
  end.

Fixpoint session (app : DeepWorkTimer) (events : list Event)
  : result (DeepWorkTimer * list (list Effect)) :=
  match events with
  | [] => Ok (app, [])
  | e :: rest =>
      r <- step app e ;;
      r' <- session (fst r) rest ;;
      Ok (fst r', snd r :: snd r')
  end.

(** ** Vocabulary of the presence state machine *)

(** The verdict of a sample against the threshold of 30. *)
Definition below_threshold (s : Sample) : Prop :=
  face_present (frame s) (faces s) = Ok false.

Definition at_or_above_threshold (s : Sample) : Prop :=
  face_present (frame s) (faces s) = Ok true.

(** A session in progress: the loop has not been told to stop, the camera
    object and the timer window exist ([start_timer] creates both before it
    starts the thread). *)
Definition in_session (app : DeepWorkTimer) : Prop :=
  stop_threads app = false /\ camera app <> None /\ timer_window app <> None.

(** The reported state: is the countdown paused? *)
Definition paused (app : DeepWorkTimer) : bool :=
  match timer_window app with
  | Some w => TimerWindow.is_paused w
  | None => false
  end.

(** The bookkeeping of notifications agrees with the countdown. *)
Definition consistent (app : DeepWorkTimer) : Prop :=
  match timer_window app with
  | Some w => last_state app = "paused"%string <-> TimerWindow.is_paused w = true
  | None => last_state app = "running"%string
  end.

(** No two neighbours of a list of actions are equal. *)
Fixpoint alternating (l : list Action) : Prop :=
  match l with
  | a :: ((b :: _) as rest) => a <> b /\ alternating rest
  | _ => True
  end.

Fixpoint some_actions (l : list (option Action)) : list Action :=
  match l with
  | [] => []
  | Some a :: rest => a :: some_actions rest
  | None :: rest => some_actions rest
  end.

(** Between the state [app] left by the sample [prev] and the sample [x],
    the elapsed absence time crosses the grace boundary: an absence timer
    is active, [prev] was stamped inside the grace period and [x] is
    stamped at or beyond its end. *)
Definition crosses_grace (app : DeepWorkTimer) (prev x : Sample) : Prop :=
  exists start,
    no_face_start_time app = Some start
    /\ (current_time prev < start + 5)%Q
    /\ (start + 5 <= current_time x)%Q.

(** The samples [seen] before [x] end with an uninterrupted run of
    below-threshold samples that [x] continues, and [x] is stamped at least
    5 seconds after [first], the sample that opened the run. *)
Definition full_grace_run (seen : list Sample) (x : Sample) : Prop :=
  exists before first run,
    seen = before ++ first :: run
    /\ Forall below_threshold (first :: run ++ [x])
    /\ (current_time first + 5 <= current_time x)%Q.

(** An active absence timer holds the stamp of the sample that opened the
    below-threshold run the samples [seen] so far end with. *)
Definition tracked (app : DeepWorkTimer) (seen : list Sample) : Prop :=
  match no_face_start_time app with
  | None => True
  | Some start =>
      exists before first run,
        seen = before ++ first :: run
        /\ Forall below_threshold (first :: run)
        /\ current_time first = start
  end.

(** An event that brings the state machine no sample. *)
Definition no_sample (e : Event) : Prop :=
  e = Cycle NotOpened \/ e = Cycle ReadFailed \/ e = TimerFires.

(** ** Worked inputs *)

(** A session of 25 minutes started with a camera that opens. *)
Definition started : DeepWorkTimer := fst (start_timer init (Some 25) true).

(** The same session while an absence is pending since time 0, and once
    the absence has been confirmed at time 5. *)
Definition awaiting : DeepWorkTimer := set_no_face_start_time started (Some 0%Q).

Definition confirmed_absent : DeepWorkTimer :=
  match handle_presence awaiting false 5%Q with
  | Ok (app, _) => app
  | Raise _ => awaiting
  end.

(** A 100 x 100 frame with one detected box of [w] x [h] pixels, read at
    time [t]: its confidence is [w * h / 10]. *)
Definition boxed (w h : Z) (t : Q) : Sample :=
  {| frame := {| shape0 := 100; shape1 := 100 |};
     faces := [ {| rect_x := 0; rect_y := 0; rect_w := w; rect_h := h |} ];
     current_time := t |}.

(** A frame in which the classifier finds nothing, read at time [t]. *)
Definition empty_frame (t : Q) : Sample :=
  {| frame := {| shape0 := 480; shape1 := 640 |};
     faces := [];
     current_time := t |}.

(** * Further parts of the program *)

(** ** The label of the timer window ([update_display], lines 125-138) *)

(** [str(n)] for an integer: decimal digits, a minus sign when negative. *)
Definition decimal (n : Z) : string :=
  DecimalString.NilZero.string_of_int (Z.to_int n).

(** The format [{n:02d}]: the decimal text, with a zero in front when it is
    shorter than two characters (a sign counts as a character). *)
Definition format_02d (n : Z) : string :=
  let s := decimal n in
  if (String.length s <? 2)%nat then ("0" ++ s)%string else s.

(** The text [update_display] writes into the timer label. *)
Definition timer_text (w : TimerWindow.t) : string :=
  let '(hours, minutes, seconds) := TimerWindow.display w in
  (format_02d hours ++ ":" ++ format_02d minutes ++ ":" ++ format_02d seconds)%string.

(** The colour [update_display] gives the label and the status dot. *)
Definition display_color (w : TimerWindow.t) : string :=
  if TimerWindow.is_paused w then "#FF9800"%string else "#4CAF50"%string.

(** ** Window placement *)

(** [center_window] (lines 190-196): where the top-left corner of a
    [width] x [height] window goes on a screen of the given size. *)
Definition center_window (screen_width screen_height width height : Z) : Z * Z :=
  ((screen_width - width) / 2, (screen_height - height) / 2).

(** [NotificationPopup.__init__] (lines 29-31): a 300 x 80 popup. *)
Definition popup_position (screen_width screen_height : Z) : Z * Z :=
  (screen_width / 2 - 300 / 2, screen_height / 2 - 80 / 2).

(** [show_error] (lines 326-328): a 300 x 150 dialog. *)
Definition error_position (screen_width screen_height : Z) : Z * Z :=
  (screen_width / 2 - 150, screen_height / 2 - 75).

(** [show_completion] (lines 430-432): a 400 x 200 dialog. *)
Definition completion_position (screen_width screen_height : Z) : Z * Z :=
  (screen_width / 2 - 200, screen_height / 2 - 100).

(** [TimerWindow.__init__] (lines 61-62): a 250 x 100 window. *)
Definition timer_window_position (screen_width : Z) : Z * Z :=
  (screen_width - 270, 20).

(** ** Leaving the application (lines 471-491) *)

Inductive ExitEffect : Type :=
| CameraRelease                          (* [self.camera.release()] *)
| DestroyAllWindows                      (* [cv2.destroyAllWindows()] *)
| RootQuit                               (* [self.root.quit()] *)
| RootDestroy                            (* [self.root.destroy()] *)
| SysExit (code : Z).                    (* [sys.exit(code)] *)

Definition cleanup_and_exit (app : DeepWorkTimer) : DeepWorkTimer * list ExitEffect :=
  let app1 := set_stop_threads app true in
  (app1,
   match camera app1 with
   | Some _ => [CameraRelease]
   | None => []
   end ++ [DestroyAllWindows; RootQuit; RootDestroy; SysExit 0]).

(** [on_closing]: the window-close request of the input window. *)
Definition on_closing (app : DeepWorkTimer) : DeepWorkTimer * list ExitEffect :=
  match timer_window app with
  | None => cleanup_and_exit app
  | Some _ => (app, [])
  end.

(** ** Vocabulary of the countdown *)

Definition is_completion (e : Effect) : bool :=
  match e with ShowCompletion => true | _ => false end.

Definition is_thread_start (e : Effect) : bool :=
  match e with ThreadStart => true | _ => false end.

(** How many times the countdown callback runs in a list of events. *)
Fixpoint timer_fires (events : list Event) : Z :=
  match events with
  | [] => 0
  | TimerFires :: rest => 1 + timer_fires rest
  | Cycle _ :: rest => timer_fires rest
  end.

(** An event that cannot report an absence: a countdown callback, a cycle
    without a sample, or a sample at or above the threshold. *)
Definition never_absent (e : Event) : Prop :=
  no_sample e \/ exists s, e = Cycle (Grabbed s) /\ at_or_above_threshold s.

(** An event that cannot report a presence: a countdown callback, a cycle
    without a sample, or a sample below the threshold. *)
Definition never_present (e : Event) : Prop :=
  no_sample e \/ exists s, e = Cycle (Grabbed s) /\ below_threshold s.

(** The seconds left on the countdown of the application, if it has one. *)
Definition remaining (app : DeepWorkTimer) : Z :=
  match timer_window app with
  | Some w => TimerWindow.remaining_seconds w
  | None => 0
  end.

(** Consecutive samples, the first of them following a sample stamped
    [prev], are stamped at most [gap] apart. *)
Fixpoint max_gap (gap prev : Q) (l : list Sample) : Prop :=
  match l with
  | [] => True
  | s :: rest => (current_time s <= prev + gap)%Q /\ max_gap gap (current_time s) rest
  end.

(** ** The detection thread, pass by pass

    In [face_detection_loop] the test of [stop_threads] (line 340) and the
    reaction to the verdict (lines 393-415) are separated by the camera
    read and the classifier, during which the main thread can run
    [update_timer].  Here a pass of the loop is two events: it begins when
    the test lets it in, and it ends when the read has returned and the
    rest of the body runs. *)

Inductive ThreadEvent : Type :=
| PassBegins              (* the loop tests [stop_threads] and enters its body *)
| PassEnds (p : Poll)     (* the read returns and the rest of the body runs *)
| CallbackFires.          (* the main thread runs [update_timer] *)

Record Running : Type := {
  app_of : DeepWorkTimer;
  in_flight : bool                       (* a pass has begun and not ended *)
}.

Definition thread_step (r : Running) (e : ThreadEvent)
  : result (Running * list Effect) :=
  match e with
  | PassBegins =>
      match face_detection_thread (app_of r) with
      | None => Ok (r, [])
      | Some _ =>
          if in_flight r then Ok (r, [])
          else if stop_threads (app_of r) then Ok (r, [])
          else Ok ({| app_of := app_of r; in_flight := true |}, [])
      end
  | PassEnds p =>
      if in_flight r then
        res <- loop_body (app_of r) p ;;
        Ok ({| app_of := fst res; in_flight := false |}, snd res)
      else Ok (r, [])
  | CallbackFires =>
      Ok ({| app_of := fst (update_timer (app_of r)); in_flight := in_flight r |},
          snd (update_timer (app_of r)))
  end.

Fixpoint thread_session (r : Running) (events : list ThreadEvent)
  : result (Running * list (list Effect)) :=
  match events with
  | [] => Ok (r, [])
  | e :: rest =>
      x <- thread_step r e ;;
      x' <- thread_session (fst x) rest ;;
      Ok (fst x', snd x :: snd x')
  end.

(** The threads right after [start_timer]: no pass has begun. *)
Definition launched (entry : option Z) (camera_opens : bool) : Running :=
  {| app_of := fst (start_timer init entry camera_opens); in_flight := false |}.

(** How many times [pause] or [resume] is called in a list of effects. *)
Definition calls (effs : list Effect) : nat :=
  (count is_call_pause effs + count is_call_resume effs)%nat.

(** * Properties *)

(** ** The countdown *)

Lemma tick_remaining (w : TimerWindow.t) :
  TimerWindow.remaining_seconds (TimerWindow.tick w) =
  if negb (TimerWindow.is_paused w) && (TimerWindow.remaining_seconds w >? 0)
  then TimerWindow.remaining_seconds w - 1
  else TimerWindow.remaining_seconds w.
Proof.
  unfold TimerWindow.tick.
  destruct (negb (TimerWindow.is_paused w) && (TimerWindow.remaining_seconds w >? 0));
    reflexivity.
Qed.

Lemma apply_op_nonneg (op : TimerOp) (w : TimerWindow.t) :
  0 <= TimerWindow.remaining_seconds w ->
  0 <= TimerWindow.remaining_seconds (apply_op op w).
Proof.
  intros Hw. destruct op; simpl; try assumption.
  rewrite tick_remaining.
  destruct (TimerWindow.is_paused w); simpl; try assumption.
  destruct (Z.gtb_spec (TimerWindow.remaining_seconds w) 0); lia.
Qed.

(** C9. From a non-negative [remaining_seconds], every sequence of [tick],
    [pause] and [resume] leaves it non-negative; [tick] subtracts exactly
    one when the timer is not paused and the value is strictly positive and
    returns the timer unchanged otherwise; [pause] and [resume] do not
    touch the value. *)
Theorem remaining_seconds_nonneg (w : TimerWindow.t) (ops : list TimerOp) :
  0 <= TimerWindow.remaining_seconds w ->
  0 <= TimerWindow.remaining_seconds (fold_left (fun w' op => apply_op op w') ops w)
  /\ (TimerWindow.is_paused w = false -> 0 < TimerWindow.remaining_seconds w ->
      TimerWindow.remaining_seconds (TimerWindow.tick w)
      = TimerWindow.remaining_seconds w - 1)
  /\ (~ (TimerWindow.is_paused w = false /\ 0 < TimerWindow.remaining_seconds w) ->
      TimerWindow.tick w = w)
  /\ TimerWindow.remaining_seconds (TimerWindow.pause w) = TimerWindow.remaining_seconds w
  /\ TimerWindow.remaining_seconds (TimerWindow.resume w) = TimerWindow.remaining_seconds w.
Proof.
  intros Hw. split; [| split; [| split; [| split]]].
  - revert w Hw. induction ops as [| op ops IH]; intros w Hw; simpl.
    + exact Hw.
    + apply IH. apply apply_op_nonneg. exact Hw.
  - intros Hp Hpos. rewrite tick_remaining, Hp. simpl.
    destruct (Z.gtb_spec (TimerWindow.remaining_seconds w) 0); lia.
  - intros Hn. unfold TimerWindow.tick.
    destruct (TimerWindow.is_paused w) eqn:Hp; simpl; [reflexivity |].
    destruct (Z.gtb_spec (TimerWindow.remaining_seconds w) 0); [| reflexivity].
    exfalso. apply Hn. split; [reflexivity | lia].
  - reflexivity.
  - reflexivity.
Qed.

Lemma remaining_seconds_nonneg_witness :
  0 <= TimerWindow.remaining_seconds
         (fold_left (fun w' op => apply_op op w')
            [OpTick; OpPause; OpTick; OpResume; OpTick; OpTick]
            (TimerWindow.init 2))
  /\ TimerWindow.remaining_seconds
       (fold_left (fun w' op => apply_op op w')
          [OpTick; OpPause; OpTick; OpResume; OpTick; OpTick]
          (TimerWindow.init 2)) = 0.
Proof.
  split.
  - apply (remaining_seconds_nonneg (TimerWindow.init 2)
             [OpTick; OpPause; OpTick; OpResume; OpTick; OpTick]).
    simpl. lia.
  - reflexivity.
Defined.

(** ** The confidence heuristic *)

Lemma wrap32_small (z : Z) : 0 <= z < 2 ^ 31 -> wrap32 z = z.
Proof.
  intros Hz. unfold wrap32.
  rewrite Z.mod_small; lia.
Qed.

Lemma py_min_is_Qmin (a b : Q) : py_min a b = Qmin a b.
Proof.
  unfold py_min, Qmin, GenericMinMax.gmin, Qle_bool, Qcompare, Z.leb.
  destruct (Qnum a * QDen b ?= Qnum b * QDen a)%Z; reflexivity.
Qed.

Section PyMax.

Context {A : Type} (key : A -> Z).

Lemma fold_keep_larger_spec (xs : list A) (x : A) :
  In (fold_left (keep_larger key) xs x) (x :: xs)
  /\ forall y, In y (x :: xs) -> key y <= key (fold_left (keep_larger key) xs x).
Proof.
  revert x. induction xs as [| z xs IH]; intros x; simpl.
  - split; [left; reflexivity |].
    intros y [-> | []]. lia.
  - destruct (IH (keep_larger key x z)) as [Hin Hmax]. split.
    + destruct Hin as [Heq | Hin].
      * rewrite <- Heq. unfold keep_larger.
        destruct (key z >? key x); [right; left | left]; reflexivity.
      * right; right. exact Hin.
    + assert (Hx : key x <= key (keep_larger key x z)
                   /\ key z <= key (keep_larger key x z)).
      { unfold keep_larger. destruct (Z.gtb_spec (key z) (key x)); lia. }
      assert (Hp : key (keep_larger key x z)
                   <= key (fold_left (keep_larger key) xs (keep_larger key x z))).
      { apply Hmax. left; reflexivity. }
      intros y [-> | [-> | Hy]]; [lia | lia |].
      apply Hmax. right; exact Hy.
Qed.

Lemma py_max_by_spec (l : list A) :
  l <> [] ->
  exists m, py_max_by key l = Ok m /\ In m l /\ forall y, In y l -> key y <= key m.
Proof.
  destruct l as [| x xs]; [congruence |]. intros _.
  exists (fold_left (keep_larger key) xs x). split; [reflexivity |].
  apply fold_keep_larger_spec.
Qed.

End PyMax.

(** C6. In a frame with at least one detected face (every bounding-box area
    fitting a signed 32-bit integer), the confidence is
    [min 100 (faceArea / frameArea * 1000)], where [faceArea] is width times
    height of a detected face whose area no other detected face exceeds and
    [frameArea] is the number of pixels of the frame, [shape[0] * shape[1]];
    the verdict compares that single value with 30. *)
Theorem confidence_largest_face (fr : Frame) (fs : list Rect) :
  fs <> [] ->
  Forall (fun f => 0 <= rect_w f * rect_h f < 2 ^ 31) fs ->
  exists largest : Rect,
    In largest fs
    /\ (forall f, In f fs -> rect_w f * rect_h f <= rect_w largest * rect_h largest)
    /\ confidence fr fs =
       Ok (Qmin 100 (inject_Z (rect_w largest * rect_h largest)
                     / inject_Z (Z.pos (shape0 fr) * Z.pos (shape1 fr)) * 1000))
    /\ face_present fr fs =
       Ok (Qle_bool 30 (Qmin 100 (inject_Z (rect_w largest * rect_h largest)
                                  / inject_Z (Z.pos (shape0 fr) * Z.pos (shape1 fr))
                                  * 1000))).
Proof.
  intros Hne Hfit.
  destruct (py_max_by_spec area_key fs Hne) as (m & Hm & Hin & Hmax).
  rewrite Forall_forall in Hfit.
  assert (Hkey : forall f, In f fs -> area_key f = rect_w f * rect_h f).
  { intros f Hf. unfold area_key, int32_mul. apply wrap32_small, Hfit, Hf. }
  assert (Hconf : confidence fr fs =
                  Ok (Qmin 100 (inject_Z (rect_w m * rect_h m)
                                / inject_Z (Z.pos (shape0 fr) * Z.pos (shape1 fr))
                                * 1000))).
  { unfold confidence. rewrite Hm. simpl. unfold confidence_of, frame_area.
    rewrite py_min_is_Qmin, (Hkey m Hin). reflexivity. }
  exists m. split; [exact Hin | split; [| split]].
  - intros f Hf. rewrite <- (Hkey f Hf), <- (Hkey m Hin). apply Hmax, Hf.
  - exact Hconf.
  - unfold face_present. rewrite Hconf.
    destruct fs as [| f fs']; [congruence |]. reflexivity.
Qed.

Lemma confidence_largest_face_witness :
  exists largest : Rect,
    In largest [ {| rect_x := 10; rect_y := 10; rect_w := 40; rect_h := 40 |};
                 {| rect_x := 200; rect_y := 90; rect_w := 120; rect_h := 120 |};
                 {| rect_x := 500; rect_y := 300; rect_w := 60; rect_h := 50 |} ]
    /\ (forall f,
          In f [ {| rect_x := 10; rect_y := 10; rect_w := 40; rect_h := 40 |};
                 {| rect_x := 200; rect_y := 90; rect_w := 120; rect_h := 120 |};
                 {| rect_x := 500; rect_y := 300; rect_w := 60; rect_h := 50 |} ] ->
          rect_w f * rect_h f <= rect_w largest * rect_h largest)
    /\ confidence {| shape0 := 480; shape1 := 640 |}
         [ {| rect_x := 10; rect_y := 10; rect_w := 40; rect_h := 40 |};
           {| rect_x := 200; rect_y := 90; rect_w := 120; rect_h := 120 |};
           {| rect_x := 500; rect_y := 300; rect_w := 60; rect_h := 50 |} ] =
       Ok (Qmin 100 (inject_Z (rect_w largest * rect_h largest)
                     / inject_Z (480 * 640) * 1000))
    /\ face_present {| shape0 := 480; shape1 := 640 |}
         [ {| rect_x := 10; rect_y := 10; rect_w := 40; rect_h := 40 |};
           {| rect_x := 200; rect_y := 90; rect_w := 120; rect_h := 120 |};
           {| rect_x := 500; rect_y := 300; rect_w := 60; rect_h := 50 |} ] =
       Ok (Qle_bool 30 (Qmin 100 (inject_Z (rect_w largest * rect_h largest)
                                  / inject_Z (480 * 640)
                                  * 1000))).
Proof.
  apply (confidence_largest_face {| shape0 := 480; shape1 := 640 |}).
  - discriminate.
  - repeat constructor; simpl; lia.
Defined.

Example confidence_of_a_120_pixel_face :
  exists c,
    confidence {| shape0 := 480; shape1 := 640 |}
      [ {| rect_x := 200; rect_y := 90; rect_w := 120; rect_h := 120 |} ] = Ok c
    /\ (c == 46.875)%Q.
Proof. eexists. split; reflexivity. Qed.

(** ** The reaction to one sample, case by case *)

Lemma Qle_bool_false (a b : Q) : Qle_bool a b = false <-> (b < a)%Q.
Proof.
  split; intros H.
  - apply Qnot_le_lt. intros Hle. apply Qle_bool_iff in Hle. congruence.
  - destruct (Qle_bool a b) eqn:E; [| reflexivity].
    apply Qle_bool_iff in E. exfalso. exact (Qlt_not_le _ _ H E).
Qed.

Lemma grace_elapsed (now start : Q) :
  Qle_bool 5 (now - start) = true <-> (start + 5 <= now)%Q.
Proof.
  rewrite Qle_bool_iff. split; intros H; lra.
Qed.

Lemma grace_pending (now start : Q) :
  Qle_bool 5 (now - start) = false <-> (now < start + 5)%Q.
Proof.
  rewrite Qle_bool_false. split; intros H; lra.
Qed.

Lemma loop_body_grabbed (app : DeepWorkTimer) (s : Sample) (present : bool) :
  camera app <> None ->
  timer_window app <> None ->
  face_present (frame s) (faces s) = Ok present ->
  loop_body app (Grabbed s) = handle_presence app present (current_time s).
Proof.
  intros Hc Hw Hv. unfold loop_body, preview.
  destruct (camera app); [| congruence].
  rewrite Hv. simpl.
  destruct (timer_window app); [| congruence].
  destruct (show_webcam_preview app); reflexivity.
Qed.

Lemma absent_starts (app : DeepWorkTimer) (now : Q) :
  no_face_start_time app = None ->
  handle_presence app false now = Ok (set_no_face_start_time app (Some now), []).
Proof.
  intros H. unfold handle_presence. simpl. rewrite H. reflexivity.
Qed.

Lemma absent_waits (app : DeepWorkTimer) (now start : Q) :
  no_face_start_time app = Some start ->
  (now < start + 5)%Q ->
  handle_presence app false now = Ok (app, []).
Proof.
  intros H Ht. unfold handle_presence. simpl. rewrite H.
  apply grace_pending in Ht. rewrite Ht. reflexivity.
Qed.

Lemma absent_stays_paused (app : DeepWorkTimer) (now start : Q) (w : TimerWindow.t) :
  no_face_start_time app = Some start ->
  timer_window app = Some w ->
  TimerWindow.is_paused w = true ->
  handle_presence app false now = Ok (app, []).
Proof.
  intros H Hw Hp. unfold handle_presence. simpl. rewrite H, Hw, Hp. simpl.
  destruct (Qle_bool 5 (now - start)); reflexivity.
Qed.

Lemma absent_pauses (app : DeepWorkTimer) (now start : Q) (w : TimerWindow.t) :
  no_face_start_time app = Some start ->
  timer_window app = Some w ->
  TimerWindow.is_paused w = false ->
  (start + 5 <= now)%Q ->
  exists effs,
    handle_presence app false now =
    Ok (set_last_state (set_timer_window app (Some (TimerWindow.pause w))) "paused", effs)
    /\ (effs = [CallPause]
        \/ effs = [CallPause; After 0 (NotificationPopup paused_message)]).
Proof.
  intros H Hw Hp Ht. unfold handle_presence. simpl. rewrite H, Hw, Hp.
  apply grace_elapsed in Ht. rewrite Ht. simpl.
  destruct (String.eqb (last_state app) "paused") eqn:E; simpl.
  - exists [CallPause]. split; [| left; reflexivity].
    apply String.eqb_eq in E. destruct app; simpl in *; subst. reflexivity.
  - eexists. split; [reflexivity | right; reflexivity].
Qed.

Lemma present_keeps_running (app : DeepWorkTimer) (now : Q) (w : TimerWindow.t) :
  timer_window app = Some w ->
  TimerWindow.is_paused w = false ->
  handle_presence app true now = Ok (set_no_face_start_time app None, []).
Proof.
  intros Hw Hp. unfold handle_presence. simpl.
  destruct (no_face_start_time app) eqn:H; simpl; rewrite Hw, Hp.
  - reflexivity.
  - destruct app; simpl in *; subst. reflexivity.
Qed.

Lemma present_resumes (app : DeepWorkTimer) (now : Q) (w : TimerWindow.t) :
  timer_window app = Some w ->
  TimerWindow.is_paused w = true ->
  exists effs,
    handle_presence app true now =
    Ok (set_last_state
          (set_timer_window (set_no_face_start_time app None)
             (Some (TimerWindow.resume w))) "running", effs)
    /\ (effs = [CallResume]
        \/ effs = [CallResume; After 0 (NotificationPopup resumed_message)]).
Proof.
  intros Hw Hp. unfold handle_presence.
  destruct app as [rs tw cam th tt st fd nf ls pv]; simpl in *; subst.
  destruct nf as [start |]; simpl; rewrite Hp; simpl;
    destruct (String.eqb ls "running") eqn:E; simpl.
  all: try (apply String.eqb_eq in E; subst;
            exists [CallResume]; split; [reflexivity | left; reflexivity]).
  all: eexists; split; [reflexivity | right; reflexivity].
Qed.

(** ** Runs of the polling loop *)

Lemma handle_presence_stop_threads (app app' : DeepWorkTimer) (present : bool)
      (now : Q) (effs : list Effect) :
  handle_presence app present now = Ok (app', effs) ->
  stop_threads app' = stop_threads app.
Proof.
  unfold handle_presence.
  destruct app as [rs tw cam th tt st fd nf ls pv]; simpl.
  destruct present, nf as [start |], tw as [w |]; simpl;
    try destruct (Qle_bool 5 (now - start));
    try destruct (TimerWindow.is_paused w); simpl;
    try destruct (String.eqb ls "paused");
    try destruct (String.eqb ls "running"); simpl;
    intros H; inversion H; reflexivity.
Qed.

Lemma loop_body_stop_threads (app app' : DeepWorkTimer) (p : Poll) (effs : list Effect) :
  loop_body app p = Ok (app', effs) -> stop_threads app' = stop_threads app.
Proof.
  unfold loop_body.
  destruct (camera app); [| intros H; inversion H; reflexivity].
  destruct p as [| | s]; try (intros H; inversion H; reflexivity).
  destruct (face_present (frame s) (faces s)) as [b |]; simpl; [| discriminate].
  destruct (preview app); simpl; [| discriminate].
  apply handle_presence_stop_threads.
Qed.

Lemma loop_app (l1 l2 : list Poll) :
  forall app app1 tr1,
    face_detection_loop app l1 = Ok (app1, tr1) ->
    stop_threads app = false ->
    face_detection_loop app (l1 ++ l2) =
    (r <- face_detection_loop app1 l2 ;; Ok (fst r, tr1 ++ snd r)).
Proof.
  induction l1 as [| p l1 IH]; intros app app1 tr1 Hrun Hstop; simpl in *.
  - inversion Hrun; subst.
    destruct (face_detection_loop app1 l2) as [[a b] |]; reflexivity.
  - rewrite Hstop in *.
    destruct (loop_body app p) as [[a effs] |] eqn:Hb; simpl in *; [| discriminate].
    destruct (face_detection_loop a l1) as [[a1 t1] |] eqn:Hl; simpl in *;
      [| discriminate].
    inversion Hrun; subst.
    rewrite (IH a app1 t1 Hl).
    + destruct (face_detection_loop app1 l2) as [[a2 t2] |]; reflexivity.
    + rewrite (loop_body_stop_threads _ _ _ _ Hb). exact Hstop.
Qed.

Lemma run_waiting (start : Q) (samples : list Sample) (app : DeepWorkTimer) :
  in_session app ->
  no_face_start_time app = Some start ->
  Forall below_threshold samples ->
  Forall (fun s => (current_time s < start + 5)%Q) samples ->
  face_detection_loop app (map Grabbed samples)
  = Ok (app, repeat [] (List.length samples)).
Proof.
  intros (Hstop & Hc & Hw) Hs Hbelow Htime.
  induction samples as [| s samples IH]; simpl; [reflexivity |].
  inversion Hbelow; subst. inversion Htime; subst.
  rewrite Hstop, (loop_body_grabbed app s false Hc Hw H1),
    (absent_waits app _ start Hs H3). simpl.
  rewrite (IH H2 H4). reflexivity.
Qed.

Lemma run_paused (samples : list Sample) (app : DeepWorkTimer) :
  in_session app ->
  no_face_start_time app <> None ->
  paused app = true ->
  Forall below_threshold samples ->
  face_detection_loop app (map Grabbed samples)
  = Ok (app, repeat [] (List.length samples)).
Proof.
  intros (Hstop & Hc & Hw) Hs Hp Hbelow.
  destruct (no_face_start_time app) as [start |] eqn:Hstart; [| congruence].
  unfold paused in Hp. destruct (timer_window app) as [w |] eqn:Htw; [| discriminate].
  assert (Hw' : timer_window app <> None) by congruence.
  induction samples as [| s samples IH]; simpl; [reflexivity |].
  inversion Hbelow; subst.
  rewrite Hstop, (loop_body_grabbed app s false Hc Hw' H1),
    (absent_stays_paused app _ start w Hstart Htw Hp). simpl.
  rewrite (IH H2). reflexivity.
Qed.

Lemma face_present_total (fr : Frame) (fs : list Rect) :
  exists b, face_present fr fs = Ok b.
Proof.
  unfold face_present, confidence.
  destruct fs as [| f fs]; simpl; eexists; reflexivity.
Qed.

Lemma handle_presence_total (app : DeepWorkTimer) (present : bool) (now : Q) :
  timer_window app <> None ->
  exists app' effs,
    handle_presence app present now = Ok (app', effs)
    /\ timer_window app' <> None
    /\ camera app' = camera app.
Proof.
  unfold handle_presence.
  destruct app as [rs tw cam th tt st fd nf ls pv]; simpl.
  intros Hw. destruct tw as [w |]; [| congruence].
  destruct present, nf as [start |]; simpl;
    try destruct (Qle_bool 5 (now - start));
    try destruct (TimerWindow.is_paused w); simpl;
    try destruct (String.eqb ls "paused");
    try destruct (String.eqb ls "running"); simpl;
    do 2 eexists; (split; [reflexivity | split; [simpl; congruence | reflexivity]]).
Qed.

Lemma loop_body_total (app : DeepWorkTimer) (p : Poll) :
  timer_window app <> None ->
  exists app' effs,
    loop_body app p = Ok (app', effs)
    /\ timer_window app' <> None
    /\ camera app' = camera app.
Proof.
  intros Hw. unfold loop_body.
  destruct (camera app) eqn:Hc; [| exists app, []; auto].
  destruct p as [| | s]; [exists app, []; auto | exists app, []; auto |].
  destruct (face_present_total (frame s) (faces s)) as [b Hb]. rewrite Hb. simpl.
  unfold preview. destruct (timer_window app) eqn:Htw; [| congruence].
  rewrite <- Htw in Hw.
  destruct (handle_presence_total app b (current_time s) Hw) as (app' & effs & H & H1 & H2).
  exists app', effs.
  destruct (show_webcam_preview app); simpl; rewrite H; repeat split; congruence.
Qed.

Lemma loop_total (polls : list Poll) :
  forall app,
    in_session app ->
    exists app' trace,
      face_detection_loop app polls = Ok (app', trace)
      /\ List.length trace = List.length polls
      /\ in_session app'.
Proof.
  induction polls as [| p polls IH]; intros app Hin; simpl.
  - exists app, []. auto.
  - destruct Hin as (Hstop & Hc & Hw). rewrite Hstop.
    destruct (loop_body_total app p Hw) as (a & effs & Hb & Hw' & Hc').
    rewrite Hb. simpl.
    assert (Hin' : in_session a).
    { repeat split; [| congruence | exact Hw'].
      rewrite (loop_body_stop_threads _ _ _ _ Hb). exact Hstop. }
    destruct (IH a Hin') as (a' & tr & Hl & Hlen & Hin'').
    rewrite Hl. simpl. exists a', (effs :: tr). simpl. auto.
Qed.

Lemma concat_repeat_nil (n : nat) : List.concat (repeat (@nil Effect) n) = [].
Proof.
  induction n as [| n IH]; simpl; [reflexivity | exact IH].
Qed.

Lemma actions_repeat_nil (n : nat) : actions (repeat [] n) = repeat None n.
Proof.
  induction n as [| n IH]; simpl; [reflexivity | f_equal; exact IH].
Qed.

(** ** The grace period *)

(** C1. A run of below-threshold samples that starts with no absence timer
    active and the countdown running: the loop processes every sample; if
    every later sample is stamped less than 5 seconds after the first one,
    no cycle has any effect (so no Pause); and at the first sample stamped
    at least 5 seconds after the first one the single Pause of the run is
    emitted, every cycle before and after it emitting no action. *)
Theorem pause_after_grace (app : DeepWorkTimer) (first : Sample) (rest : list Sample) :
  in_session app ->
  no_face_start_time app = None ->
  paused app = false ->
  Forall below_threshold (first :: rest) ->
  exists app' trace,
    face_detection_loop app (map Grabbed (first :: rest)) = Ok (app', trace)
    /\ (Forall (fun s => (current_time s < current_time first + 5)%Q) rest ->
        trace = repeat [] (S (List.length rest)) /\ paused app' = false)
    /\ (forall pre x post,
          rest = pre ++ x :: post ->
          Forall (fun s => (current_time s < current_time first + 5)%Q) pre ->
          (current_time first + 5 <= current_time x)%Q ->
          actions trace
          = repeat None (S (List.length pre)) ++ Some Pause :: repeat None (List.length post)
          /\ count is_call_pause (List.concat trace) = 1%nat
          /\ paused app' = true).
Proof.
  intros Hin Hnone Hrun Hbelow.
  destruct (loop_total (map Grabbed (first :: rest)) app Hin) as (app' & trace & Hloop & _ & _).
  exists app', trace. split; [exact Hloop |].
  destruct Hin as (Hstop & Hc & Hw).
  inversion Hbelow as [| ? ? Hfirst Hrest]; subst.
  simpl in Hloop.
  rewrite Hstop, (loop_body_grabbed app first false Hc Hw Hfirst),
    (absent_starts app _ Hnone) in Hloop. simpl in Hloop.
  set (app1 := set_no_face_start_time app (Some (current_time first))) in *.
  assert (Hin1 : in_session app1) by (repeat split; assumption).
  assert (Hs1 : no_face_start_time app1 = Some (current_time first)) by reflexivity.
  split.
  - intros Htime.
    rewrite (run_waiting _ rest app1 Hin1 Hs1 Hrest Htime) in Hloop.
    simpl in Hloop. inversion Hloop; subst. split; [reflexivity | exact Hrun].
  - intros pre x post -> Hpre Hx.
    apply Forall_app in Hrest. destruct Hrest as [Hbpre Hbpost].
    inversion Hbpost as [| ? ? Hbx Hbpost']; subst.
    rewrite map_app in Hloop.
    rewrite (loop_app _ _ app1 app1 _ (run_waiting _ pre app1 Hin1 Hs1 Hbpre Hpre) Hstop)
      in Hloop.
    simpl in Hloop.
    unfold paused in Hrun. destruct (timer_window app) as [w |] eqn:Htw; [| congruence].
    assert (Htw1 : timer_window app1 = Some w) by exact Htw.
    assert (Hw1 : timer_window app1 <> None) by congruence.
    destruct (absent_pauses app1 (current_time x) _ w Hs1 Htw1 Hrun Hx)
      as (effs & Hfire & Heffs).
    rewrite Hstop, (loop_body_grabbed app1 x false Hc Hw1 Hbx), Hfire in Hloop.
    simpl in Hloop.
    set (app2 := set_last_state (set_timer_window app1 (Some (TimerWindow.pause w))) "paused")
      in *.
    assert (Hin2 : in_session app2) by (repeat split; simpl; congruence).
    rewrite (run_paused post app2 Hin2) in Hloop;
      [| simpl; congruence | reflexivity | exact Hbpost'].
    simpl in Hloop. inversion Hloop; subst.
    unfold actions, count. simpl.
    rewrite map_app, List.concat_app. simpl.
    fold (actions (repeat [] (List.length pre))).
    fold (actions (repeat [] (List.length post))).
    rewrite !actions_repeat_nil, !concat_repeat_nil, app_nil_r. simpl.
    destruct Heffs as [-> | ->]; simpl; auto.
Qed.

Example spec_example_interrupted_absence :
  exists app',
    face_detection_loop started
      (map Grabbed [boxed 10 10 0; boxed 10 10 1; boxed 20 20 3;
                    boxed 5 10 4; boxed 5 10 9; boxed 20 30 9.5])
    = Ok (app',
          [ []; []; []; [];
            [CallPause; After 0 (NotificationPopup paused_message)];
            [CallResume; After 0 (NotificationPopup resumed_message)] ]).
Proof. eexists. vm_compute. reflexivity. Qed.

Example spec_example_half_second_polls :
  exists app',
    face_detection_loop started
      (map Grabbed [empty_frame 0; empty_frame 0.5; empty_frame 1; empty_frame 1.5;
                    empty_frame 2; empty_frame 2.5; empty_frame 3; empty_frame 3.5;
                    empty_frame 4; empty_frame 4.5; empty_frame 5])
    = Ok (app',
          [ []; []; []; []; []; []; []; []; []; [];
            [CallPause; After 0 (NotificationPopup paused_message)] ]).
Proof. eexists. vm_compute. reflexivity. Qed.

Lemma started_in_session : in_session started.
Proof.
  unfold in_session. vm_compute. repeat split; discriminate.
Qed.

Lemma pause_after_grace_witness :
  exists app' trace,
    face_detection_loop started
      (map Grabbed (empty_frame 0 :: [empty_frame 2.5; empty_frame 5; empty_frame 5.5]))
    = Ok (app', trace)
    /\ (Forall (fun s => (current_time s < current_time (empty_frame 0) + 5)%Q)
          [empty_frame 2.5; empty_frame 5; empty_frame 5.5] ->
        trace = repeat [] 4 /\ paused app' = false)
    /\ (forall pre x post,
          [empty_frame 2.5; empty_frame 5; empty_frame 5.5] = pre ++ x :: post ->
          Forall (fun s => (current_time s < current_time (empty_frame 0) + 5)%Q) pre ->
          (current_time (empty_frame 0) + 5 <= current_time x)%Q ->
          actions trace
          = repeat None (S (List.length pre)) ++ Some Pause :: repeat None (List.length post)
          /\ count is_call_pause (List.concat trace) = 1%nat
          /\ paused app' = true).
Proof.
  apply (pause_after_grace started (empty_frame 0)
           [empty_frame 2.5; empty_frame 5; empty_frame 5.5]).
  - exact started_in_session.
  - reflexivity.
  - reflexivity.
  - repeat constructor.
Defined.

(** ** One polling cycle seen as a transition of the reported state *)

Ltac split_handler ls nf w now :=
  simpl;
  try destruct nf as [?start |]; simpl;
  try match goal with
      | |- context [Qle_bool 5 ?e] => destruct (Qle_bool 5 e) eqn:?Hgrace
      end;
  simpl;
  try match goal with
      | |- context [TimerWindow.is_paused w] =>
          destruct (TimerWindow.is_paused w) eqn:?Hpaused
      end;
  simpl;
  try match goal with
      | |- context [String.eqb ls ?s] => destruct (String.eqb ls s) eqn:?Hls
      end;
  simpl.

Lemma handle_presence_cases (app : DeepWorkTimer) (present : bool) (now : Q) :
  in_session app ->
  exists app' effs,
    handle_presence app present now = Ok (app', effs)
    /\ in_session app'
    /\ ((effs = [] /\ paused app' = paused app)
        \/ (present = false /\ paused app = false /\ paused app' = true
            /\ (effs = [CallPause]
                \/ effs = [CallPause; After 0 (NotificationPopup paused_message)]))
        \/ (present = true /\ paused app = true /\ paused app' = false
            /\ (effs = [CallResume]
                \/ effs = [CallResume; After 0 (NotificationPopup resumed_message)]))).
Proof.
  unfold in_session, paused, handle_presence.
  destruct app as [rs tw cam th tt st fd nf ls pv]; simpl.
  intros (Hstop & Hc & Hw). destruct tw as [w |]; [| congruence].
  destruct present; split_handler ls nf w now;
    do 2 eexists; (split; [reflexivity |]); simpl;
    (split; [repeat split; congruence |]); auto 10.
Qed.

Lemma loop_body_cases (app : DeepWorkTimer) (p : Poll) :
  in_session app ->
  exists app' effs,
    loop_body app p = Ok (app', effs)
    /\ in_session app'
    /\ ((effs = [] /\ paused app' = paused app)
        \/ (paused app = false /\ paused app' = true
            /\ (effs = [CallPause]
                \/ effs = [CallPause; After 0 (NotificationPopup paused_message)]))
        \/ (paused app = true /\ paused app' = false
            /\ (effs = [CallResume]
                \/ effs = [CallResume; After 0 (NotificationPopup resumed_message)]))).
Proof.
  intros Hin.
  assert (Hidle : exists app' effs,
             Ok (app, @nil Effect) = Ok (app', effs)
             /\ in_session app'
             /\ ((effs = [] /\ paused app' = paused app)
                 \/ (paused app = false /\ paused app' = true
                     /\ (effs = [CallPause]
                         \/ effs = [CallPause; After 0 (NotificationPopup paused_message)]))
                 \/ (paused app = true /\ paused app' = false
                     /\ (effs = [CallResume]
                         \/ effs = [CallResume;
                                    After 0 (NotificationPopup resumed_message)])))).
  { exists app, []. auto. }
  destruct p as [| | s];
    [unfold loop_body; destruct (camera app); exact Hidle
    | unfold loop_body; destruct (camera app); exact Hidle |].
  destruct (face_present_total (frame s) (faces s)) as [b Hb].
  destruct Hin as (Hstop & Hc & Hw).
  rewrite (loop_body_grabbed app s b Hc Hw Hb).
  destruct (handle_presence_cases app b (current_time s) (conj Hstop (conj Hc Hw)))
    as (app' & effs & Hh & Hin' & Hcases).
  exists app', effs. split; [exact Hh | split; [exact Hin' |]].
  destruct Hcases as [H | [(_ & H) | (_ & H)]]; auto.
Qed.

(** ** A Pause needs a full, uninterrupted grace period *)

Lemma tracked_step (app : DeepWorkTimer) (seen : list Sample) (s : Sample) :
  in_session app ->
  tracked app seen ->
  exists app1 effs,
    loop_body app (Grabbed s) = Ok (app1, effs)
    /\ in_session app1
    /\ tracked app1 (seen ++ [s])
    /\ (action_of effs = Some Pause -> full_grace_run seen s).
Proof.
  intros (Hstop & Hc & Hw) Htr.
  destruct (face_present_total (frame s) (faces s)) as [b Hb].
  rewrite (loop_body_grabbed app s b Hc Hw Hb).
  revert Hstop Hc Hw Htr.
  unfold in_session, tracked, handle_presence.
  destruct app as [rs tw cam th tt st fd nf ls pv]; simpl.
  intros Hstop Hc Hw Htr. destruct tw as [w |]; [| congruence].
  destruct b.
  - (* at or above the threshold: the timer is cleared *)
    split_handler ls nf w (current_time s);
      do 2 eexists; (split; [reflexivity |]); simpl;
      (split; [repeat split; congruence |]);
      (split; [exact I | discriminate]).
  - destruct nf as [start |]; simpl.
    + (* the run goes on *)
      destruct Htr as (before & first & run & -> & Hrun & Hfirst).
      assert (Hrun' : Forall below_threshold (first :: run ++ [s])).
      { rewrite app_comm_cons. apply Forall_app. split; [exact Hrun |].
        constructor; [exact Hb | constructor]. }
      assert (Hseen : (before ++ first :: run) ++ [s] = before ++ first :: run ++ [s]).
      { rewrite <- app_assoc. reflexivity. }
      destruct (Qle_bool 5 (current_time s - start)) eqn:Hgrace; simpl;
        [destruct (TimerWindow.is_paused w); simpl;
         [| destruct (String.eqb ls "paused"); simpl] |];
        do 2 eexists; (split; [reflexivity |]); simpl;
        (split; [repeat split; congruence |]);
        (split; [exists before, first, (run ++ [s]);
                 split; [exact Hseen | split; [exact Hrun' | exact Hfirst]] |]);
        try discriminate;
        intros _; exists before, first, run;
        (split; [reflexivity | split; [exact Hrun' |]]);
        rewrite Hfirst; apply grace_elapsed; exact Hgrace.
    + (* the run starts here *)
      do 2 eexists. split; [reflexivity |]. simpl.
      split; [repeat split; congruence |].
      split; [| discriminate].
      exists seen, s, []. repeat split. constructor; [exact Hb | constructor].
Qed.

Lemma pause_needs_full_run (later : list Sample) :
  forall app seen,
    in_session app ->
    tracked app seen ->
    exists app' trace,
      face_detection_loop app (map Grabbed later) = Ok (app', trace)
      /\ forall pre x post,
           later = pre ++ x :: post ->
           nth (List.length pre) (actions trace) None = Some Pause ->
           full_grace_run (seen ++ pre) x.
Proof.
  induction later as [| s later IH]; intros app seen Hin Htr; simpl.
  - exists app, []. split; [reflexivity |].
    intros pre x post H. destruct pre; discriminate.
  - destruct (tracked_step app seen s Hin Htr) as (app1 & effs & Hb & Hin1 & Htr1 & Hp).
    destruct Hin as (Hstop & _). rewrite Hstop, Hb. simpl.
    destruct (IH app1 (seen ++ [s]) Hin1 Htr1) as (app' & trace & Hloop & Hrest).
    rewrite Hloop. simpl. exists app', (effs :: trace). split; [reflexivity |].
    intros pre x post Hsplit Hnth.
    destruct pre as [| p pre]; simpl in *.
    + inversion Hsplit; subst. rewrite app_nil_r. apply Hp, Hnth.
    + inversion Hsplit; subst.
      replace (seen ++ p :: pre) with ((seen ++ [p]) ++ pre)
        by (rewrite <- app_assoc; reflexivity).
      apply (Hrest pre x post); [reflexivity | exact Hnth].
Qed.

(** C2. While the countdown runs and an absence timer is active, one sample
    at or above the threshold clears the timer at once, with no effect, and
    leaves a state that no longer depends on when the absence began; from
    there, whatever samples follow, a Pause is emitted only at a sample
    that continues an uninterrupted below-threshold run begun after the
    reset and is stamped at least 5 seconds after the sample that opened
    that run. *)
Theorem present_sample_resets_grace (app : DeepWorkTimer) (start : Q) (s : Sample) :
  in_session app ->
  no_face_start_time app = Some start ->
  paused app = false ->
  at_or_above_threshold s ->
  loop_body app (Grabbed s) = Ok (set_no_face_start_time app None, [])
  /\ no_face_start_time (set_no_face_start_time app None) = None
  /\ paused (set_no_face_start_time app None) = false
  /\ forall later : list Sample,
       exists app' trace,
         face_detection_loop (set_no_face_start_time app None) (map Grabbed later)
         = Ok (app', trace)
         /\ forall pre x post,
              later = pre ++ x :: post ->
              nth (List.length pre) (actions trace) None = Some Pause ->
              full_grace_run pre x.
Proof.
  intros Hin Hstart Hrun Hs.
  split; [| split; [reflexivity | split; [exact Hrun |]]].
  - destruct Hin as (Hstop & Hc & Hw).
    rewrite (loop_body_grabbed app s true Hc Hw Hs).
    unfold paused in Hrun. destruct (timer_window app) as [w |] eqn:Htw; [| congruence].
    apply (present_keeps_running app _ w Htw Hrun).
  - intros later.
    apply (pause_needs_full_run later (set_no_face_start_time app None) []).
    + destruct Hin as (Hstop & Hc & Hw). repeat split; assumption.
    + exact I.
Qed.

Lemma present_sample_resets_grace_witness :
  loop_body awaiting (Grabbed (boxed 20 20 4.5))
  = Ok (set_no_face_start_time awaiting None, [])
  /\ no_face_start_time (set_no_face_start_time awaiting None) = None
  /\ paused (set_no_face_start_time awaiting None) = false
  /\ forall later : list Sample,
       exists app' trace,
         face_detection_loop
           (set_no_face_start_time awaiting None)
           (map Grabbed later)
         = Ok (app', trace)
         /\ forall pre x post,
              later = pre ++ x :: post ->
              nth (List.length pre) (actions trace) None = Some Pause ->
              full_grace_run pre x.
Proof.
  apply (present_sample_resets_grace awaiting 0%Q
           (boxed 20 20 4.5)).
  - exact started_in_session.
  - reflexivity.
  - reflexivity.
  - reflexivity.
Defined.

(** ** Resuming *)

Lemma quiet_until_pause (polls : list Poll) :
  forall app,
    in_session app ->
    paused app = false ->
    exists app' trace,
      face_detection_loop app polls = Ok (app', trace)
      /\ forall n,
           ~ In (Some Pause) (firstn n (actions trace)) ->
           Forall (fun effs => effs = []) (firstn n trace).
Proof.
  induction polls as [| p polls IH]; intros app Hin Hrun; simpl.
  - exists app, []. split; [reflexivity |].
    intros n _. rewrite firstn_nil. constructor.
  - destruct (loop_body_cases app p Hin) as (app1 & effs & Hb & Hin1 & Hcases).
    destruct Hin as (Hstop & _). rewrite Hstop, Hb. simpl.
    destruct Hcases as [(-> & Hsame) | [(_ & _ & Heffs) | (Hp & _)]];
      [| | congruence].
    + destruct (IH app1 Hin1) as (app' & trace & Hloop & Hquiet); [congruence |].
      rewrite Hloop. simpl. exists app', ([] :: trace). split; [reflexivity |].
      intros [| n] Hno; simpl in *; constructor; [reflexivity |].
      apply Hquiet. intros Hin'. apply Hno. right. exact Hin'.
    + destruct (loop_total polls app1 Hin1) as (app' & trace & Hloop & _).
      rewrite Hloop. simpl. exists app', (effs :: trace). split; [reflexivity |].
      intros [| n] Hno; simpl in *; [constructor |].
      exfalso. apply Hno. left. destruct Heffs as [-> | ->]; reflexivity.
Qed.

(** C3. While the countdown is paused, a sample at or above the threshold
    emits Resume, exactly once and with no Pause, and the countdown runs
    again; in whatever samples follow, every cycle before the next Pause
    has no effect at all, and that next Pause needs an uninterrupted
    below-threshold run spanning at least 5 seconds. *)
Theorem resume_once (app : DeepWorkTimer) (s : Sample) :
  in_session app ->
  paused app = true ->
  at_or_above_threshold s ->
  exists app1 effs,
    loop_body app (Grabbed s) = Ok (app1, effs)
    /\ action_of effs = Some Resume
    /\ count is_call_resume effs = 1%nat
    /\ count is_call_pause effs = 0%nat
    /\ paused app1 = false
    /\ forall later : list Sample,
         exists app' trace,
           face_detection_loop app1 (map Grabbed later) = Ok (app', trace)
           /\ (forall n,
                 ~ In (Some Pause) (firstn n (actions trace)) ->
                 Forall (fun e => e = []) (firstn n trace))
           /\ (forall pre x post,
                 later = pre ++ x :: post ->
                 nth (List.length pre) (actions trace) None = Some Pause ->
                 full_grace_run pre x).
Proof.
  intros Hin Hp Hs.
  pose proof Hin as (Hstop & Hc & Hw).
  pose proof (loop_body_grabbed app s true Hc Hw Hs) as Hbody.
  unfold paused in Hp. destruct (timer_window app) as [w |] eqn:Htw; [| discriminate].
  destruct (present_resumes app (current_time s) w Htw Hp) as (effs & Hh & Heffs).
  set (app1 := set_last_state
                 (set_timer_window (set_no_face_start_time app None)
                    (Some (TimerWindow.resume w))) "running") in *.
  assert (Hin1 : in_session app1) by (repeat split; simpl; congruence).
  exists app1, effs.
  split; [rewrite Hbody; exact Hh |].
  split; [destruct Heffs as [-> | ->]; reflexivity |].
  split; [destruct Heffs as [-> | ->]; reflexivity |].
  split; [destruct Heffs as [-> | ->]; reflexivity |].
  split; [reflexivity |].
  intros later.
  destruct (quiet_until_pause (map Grabbed later) app1 Hin1 eq_refl)
    as (app' & trace & Hloop & Hquiet).
  destruct (pause_needs_full_run later app1 [] Hin1 I) as (app'' & trace' & Hloop' & Hfull).
  rewrite Hloop in Hloop'. inversion Hloop'; subst.
  exists app'', trace'. auto.
Qed.

Lemma resume_once_witness :
  exists app1 effs,
    loop_body confirmed_absent (Grabbed (boxed 20 30 9.5)) = Ok (app1, effs)
    /\ action_of effs = Some Resume
    /\ count is_call_resume effs = 1%nat
    /\ count is_call_pause effs = 0%nat
    /\ paused app1 = false
    /\ forall later : list Sample,
         exists app' trace,
           face_detection_loop app1 (map Grabbed later) = Ok (app', trace)
           /\ (forall n,
                 ~ In (Some Pause) (firstn n (actions trace)) ->
                 Forall (fun e => e = []) (firstn n trace))
           /\ (forall pre x post,
                 later = pre ++ x :: post ->
                 nth (List.length pre) (actions trace) None = Some Pause ->
                 full_grace_run pre x).
Proof.
  apply (resume_once confirmed_absent (boxed 20 30 9.5)).
  - unfold in_session. vm_compute. repeat split; discriminate.
  - reflexivity.
  - reflexivity.
Defined.

(** ** One signal per transition *)

Lemma actions_alternate (polls : list Poll) :
  forall app,
    in_session app ->
    exists app' trace,
      face_detection_loop app polls = Ok (app', trace)
      /\ alternating (some_actions (actions trace))
      /\ forall a,
           hd_error (some_actions (actions trace)) = Some a ->
           a = if paused app then Resume else Pause.
Proof.
  induction polls as [| p polls IH]; intros app Hin; simpl.
  - exists app, []. repeat split. discriminate.
  - destruct (loop_body_cases app p Hin) as (app1 & effs & Hb & Hin1 & Hcases).
    destruct Hin as (Hstop & _). rewrite Hstop, Hb. simpl.
    destruct (IH app1 Hin1) as (app' & trace & Hloop & Halt & Hhd).
    rewrite Hloop. simpl. exists app', (effs :: trace). split; [reflexivity |].
    destruct Hcases as [(-> & Hsame) | [(Hp & Hp1 & Heffs) | (Hp & Hp1 & Heffs)]].
    + simpl. rewrite <- Hsame. auto.
    + assert (Ha : action_of effs = Some Pause)
        by (destruct Heffs as [-> | ->]; reflexivity).
      simpl. rewrite Ha, Hp. split; [| intros a H; inversion H; reflexivity].
      rewrite Hp1 in Hhd.
      destruct (some_actions (actions trace)) as [| b rest] eqn:E; simpl; [exact I |].
      split; [| exact Halt].
      rewrite (Hhd b eq_refl). discriminate.
    + assert (Ha : action_of effs = Some Resume)
        by (destruct Heffs as [-> | ->]; reflexivity).
      simpl. rewrite Ha, Hp. split; [| intros a H; inversion H; reflexivity].
      rewrite Hp1 in Hhd.
      destruct (some_actions (actions trace)) as [| b rest] eqn:E; simpl; [exact I |].
      split; [| exact Halt].
      rewrite (Hhd b eq_refl). discriminate.
Qed.

(** C4. In a session, whatever the state and whatever a polling cycle
    meets: the cycle calls [pause] or [resume] at most once in total and
    posts at most as many notifications as it makes such calls; a cycle
    that leaves the reported state as it was has no effect at all; [pause]
    is called only on the transition from running to paused and [resume]
    only on the transition from paused to running.  Over any run of
    cycles the emitted actions alternate, starting with the one that
    leaves the initial state, so no signal is repeated while the state
    stays the same. *)
Theorem one_signal_per_transition (app : DeepWorkTimer) (polls : list Poll) :
  in_session app ->
  (forall p,
     exists app1 effs,
       loop_body app p = Ok (app1, effs)
       /\ (count is_call_pause effs + count is_call_resume effs <= 1)%nat
       /\ (count is_popup effs <= count is_call_pause effs + count is_call_resume effs)%nat
       /\ (paused app1 = paused app -> effs = [])
       /\ (In CallPause effs -> paused app = false /\ paused app1 = true)
       /\ (In CallResume effs -> paused app = true /\ paused app1 = false))
  /\ exists app' trace,
       face_detection_loop app polls = Ok (app', trace)
       /\ alternating (some_actions (actions trace))
       /\ forall a,
            hd_error (some_actions (actions trace)) = Some a ->
            a = if paused app then Resume else Pause.
Proof.
  intros Hin. split; [| apply actions_alternate; exact Hin].
  intros p.
  destruct (loop_body_cases app p Hin) as (app1 & effs & Hb & _ & Hcases).
  exists app1, effs. split; [exact Hb |].
  destruct Hcases as [(-> & Hsame) | [(Hp & Hp1 & Heffs) | (Hp & Hp1 & Heffs)]].
  - unfold count. simpl.
    split; [lia | split; [lia | split; [reflexivity | split; contradiction]]].
  - assert (Hno : ~ In CallResume effs).
    { destruct Heffs as [-> | ->]; simpl; intuition discriminate. }
    split; [destruct Heffs as [-> | ->]; unfold count; simpl; lia |].
    split; [destruct Heffs as [-> | ->]; unfold count; simpl; lia |].
    split; [congruence |].
    split; [intros _; split; assumption | intros H; contradiction].
  - assert (Hno : ~ In CallPause effs).
    { destruct Heffs as [-> | ->]; simpl; intuition discriminate. }
    split; [destruct Heffs as [-> | ->]; unfold count; simpl; lia |].
    split; [destruct Heffs as [-> | ->]; unfold count; simpl; lia |].
    split; [congruence |].
    split; [intros H; contradiction | intros _; split; assumption].
Qed.

Lemma one_signal_per_transition_witness :
  (forall p,
     exists app1 effs,
       loop_body awaiting p = Ok (app1, effs)
       /\ (count is_call_pause effs + count is_call_resume effs <= 1)%nat
       /\ (count is_popup effs <= count is_call_pause effs + count is_call_resume effs)%nat
       /\ (paused app1 = paused awaiting -> effs = [])
       /\ (In CallPause effs -> paused awaiting = false /\ paused app1 = true)
       /\ (In CallResume effs -> paused awaiting = true /\ paused app1 = false))
  /\ exists app' trace,
       face_detection_loop awaiting
         [Grabbed (empty_frame 5); ReadFailed; Grabbed (empty_frame 6);
          Grabbed (boxed 20 30 7); Grabbed (boxed 20 30 8)]
       = Ok (app', trace)
       /\ alternating (some_actions (actions trace))
       /\ forall a,
            hd_error (some_actions (actions trace)) = Some a ->
            a = if paused awaiting then Resume else Pause.
Proof.
  apply (one_signal_per_transition awaiting
           [Grabbed (empty_frame 5); ReadFailed; Grabbed (empty_frame 6);
            Grabbed (boxed 20 30 7); Grabbed (boxed 20 30 8)]).
  unfold in_session. vm_compute. repeat split; discriminate.
Defined.

(** ** Idempotence *)

Lemma after_present (app : DeepWorkTimer) (now : Q) :
  in_session app ->
  exists app1 effs,
    handle_presence app true now = Ok (app1, effs)
    /\ in_session app1
    /\ no_face_start_time app1 = None
    /\ paused app1 = false.
Proof.
  unfold in_session, paused, handle_presence.
  destruct app as [rs tw cam th tt st fd nf ls pv]; simpl.
  intros (Hstop & Hc & Hw). destruct tw as [w |]; [| congruence].
  split_handler ls nf w now;
    do 2 eexists; (split; [reflexivity |]); simpl;
    (split; [repeat split; congruence |]); auto.
Qed.

Lemma after_absent (app : DeepWorkTimer) (now : Q) :
  in_session app ->
  exists app1 effs start,
    handle_presence app false now = Ok (app1, effs)
    /\ in_session app1
    /\ no_face_start_time app1 = Some start
    /\ (paused app1 = true \/ (now < start + 5)%Q).
Proof.
  unfold in_session, paused, handle_presence.
  destruct app as [rs tw cam th tt st fd nf ls pv]; simpl.
  intros (Hstop & Hc & Hw). destruct tw as [w |]; [| congruence].
  destruct nf as [start |]; simpl.
  - destruct (Qle_bool 5 (now - start)) eqn:Hgrace; simpl;
      [destruct (TimerWindow.is_paused w) eqn:Hp; simpl;
       [| destruct (String.eqb ls "paused"); simpl] |].
    all: do 2 eexists; exists start; (split; [reflexivity |]); simpl;
      (split; [repeat split; congruence |]); (split; [reflexivity |]); auto.
    right. apply grace_pending. exact Hgrace.
  - do 2 eexists. exists now. split; [reflexivity |]. simpl.
    split; [repeat split; congruence |]. split; [reflexivity |].
    right. lra.
Qed.

Lemma set_no_face_start_time_None (app : DeepWorkTimer) :
  no_face_start_time app = None -> set_no_face_start_time app None = app.
Proof.
  destruct app; simpl. intros ->. reflexivity.
Qed.

(** C5. Let [app1] be the state any session state is left in by a sample
    [prev], and let [x] be a sample with the same verdict as [prev] that
    does not make the elapsed absence time cross the 5-second boundary:
    observing [x] has no effect and leaves [app1] as it is.  The same holds
    in a state with no absence timer and a running countdown (such as the
    state a session starts in) for a sample at or above the threshold. *)
Theorem same_verdict_no_action (app : DeepWorkTimer) (prev x : Sample) (verdict : bool) :
  in_session app ->
  face_present (frame prev) (faces prev) = Ok verdict ->
  face_present (frame x) (faces x) = Ok verdict ->
  (exists app1 effs,
     loop_body app (Grabbed prev) = Ok (app1, effs)
     /\ (~ crosses_grace app1 prev x -> loop_body app1 (Grabbed x) = Ok (app1, [])))
  /\ (no_face_start_time app = None -> paused app = false -> verdict = true ->
      loop_body app (Grabbed x) = Ok (app, [])).
Proof.
  intros Hin Hprev Hx. split.
  - pose proof Hin as (Hstop & Hc & Hw).
    rewrite (loop_body_grabbed app prev verdict Hc Hw Hprev).
    destruct verdict.
    + destruct (after_present app (current_time prev) Hin)
        as (app1 & effs & Hh & (Hstop1 & Hc1 & Hw1) & Hnone & Hrun).
      exists app1, effs. split; [exact Hh |]. intros _.
      rewrite (loop_body_grabbed app1 x true Hc1 Hw1 Hx).
      unfold paused in Hrun.
      destruct (timer_window app1) as [w |] eqn:Htw; [| congruence].
      rewrite (present_keeps_running app1 _ w Htw Hrun).
      rewrite (set_no_face_start_time_None app1 Hnone). reflexivity.
    + destruct (after_absent app (current_time prev) Hin)
        as (app1 & effs & start & Hh & (Hstop1 & Hc1 & Hw1) & Hstart & Hcase).
      exists app1, effs. split; [exact Hh |]. intros Hno.
      rewrite (loop_body_grabbed app1 x false Hc1 Hw1 Hx).
      destruct (paused app1) eqn:Hp.
      * unfold paused in Hp.
        destruct (timer_window app1) as [w |] eqn:Htw; [| discriminate].
        apply (absent_stays_paused app1 _ start w Hstart Htw Hp).
      * destruct Hcase as [Hc' | Hlt]; [discriminate |].
        apply (absent_waits app1 _ start Hstart).
        apply Qnot_le_lt. intros Hle. apply Hno.
        exists start. auto.
  - intros Hnone Hrun ->.
    destruct Hin as (Hstop & Hc & Hw).
    rewrite (loop_body_grabbed app x true Hc Hw Hx).
    unfold paused in Hrun.
    destruct (timer_window app) as [w |] eqn:Htw; [| congruence].
    rewrite (present_keeps_running app _ w Htw Hrun).
    rewrite (set_no_face_start_time_None app Hnone). reflexivity.
Qed.

Lemma same_verdict_no_action_witness :
  (exists app1 effs,
     loop_body awaiting (Grabbed (empty_frame 1)) = Ok (app1, effs)
     /\ (~ crosses_grace app1 (empty_frame 1) (empty_frame 2) ->
         loop_body app1 (Grabbed (empty_frame 2)) = Ok (app1, [])))
  /\ (no_face_start_time awaiting = None -> paused awaiting = false -> false = true ->
      loop_body awaiting (Grabbed (empty_frame 2)) = Ok (awaiting, [])).
Proof.
  apply (same_verdict_no_action awaiting (empty_frame 1) (empty_frame 2) false).
  - unfold in_session. vm_compute. repeat split; discriminate.
  - reflexivity.
  - reflexivity.
Defined.

(** ** Cycles without a sample *)

Lemma update_timer_keeps_machine (app : DeepWorkTimer) :
  paused (fst (update_timer app)) = paused app
  /\ no_face_start_time (fst (update_timer app)) = no_face_start_time app
  /\ last_state (fst (update_timer app)) = last_state app
  /\ (snd (update_timer app) = []
      \/ snd (update_timer app) = [ShowCompletion]
      \/ snd (update_timer app) = [After 1000 UpdateTimer]).
Proof.
  unfold update_timer, paused.
  destruct (stop_threads app); [simpl; auto |].
  destruct (timer_window app) as [w |] eqn:Htw; [| simpl; rewrite Htw; auto].
  assert (Hp : TimerWindow.is_paused
                 (if negb (TimerWindow.is_paused w) then TimerWindow.tick w else w)
               = TimerWindow.is_paused w).
  { unfold TimerWindow.tick.
    destruct (TimerWindow.is_paused w) eqn:E; simpl; [exact E |].
    destruct (TimerWindow.remaining_seconds w >? 0); simpl;
      [reflexivity | exact E]. }
  destruct (TimerWindow.remaining_seconds
              (if negb (TimerWindow.is_paused w) then TimerWindow.tick w else w) <=? 0);
    simpl; rewrite Hp; auto 6.
Qed.

(** C7. A polling cycle whose read fails, or that finds the camera not
    open, returns the state unchanged with no effect, and so does any
    number of such cycles in a row.  With the countdown callback
    interleaved, any sequence of events that brings no sample leaves the
    reported pause state, the absence-start stamp and [last_state] as they
    were, and no cycle of it calls [pause] or [resume] or posts a
    notification. *)
Theorem no_sample_holds_state (app : DeepWorkTimer) (events : list Event) :
  Forall no_sample events ->
  loop_body app ReadFailed = Ok (app, [])
  /\ loop_body app NotOpened = Ok (app, [])
  /\ (forall n,
        face_detection_loop app (repeat ReadFailed n)
        = Ok (app, repeat [] (if stop_threads app then 0%nat else n)))
  /\ exists app' trace,
       session app events = Ok (app', trace)
       /\ paused app' = paused app
       /\ no_face_start_time app' = no_face_start_time app
       /\ last_state app' = last_state app
       /\ Forall (fun effs =>
                    count is_call_pause effs = 0%nat
                    /\ count is_call_resume effs = 0%nat
                    /\ count is_popup effs = 0%nat) trace.
Proof.
  intros Hev.
  assert (Hfail : forall a, loop_body a ReadFailed = Ok (a, [])).
  { intros a. unfold loop_body. destruct (camera a); reflexivity. }
  assert (Hclosed : forall a, loop_body a NotOpened = Ok (a, [])).
  { intros a. unfold loop_body. destruct (camera a); reflexivity. }
  split; [apply Hfail | split; [apply Hclosed | split]].
  - intros n. destruct (stop_threads app) eqn:Hstop.
    + destruct n; simpl; [reflexivity | rewrite Hstop; reflexivity].
    + induction n as [| n IH]; simpl; [reflexivity |].
      rewrite Hstop, Hfail. simpl. rewrite IH. reflexivity.
  - revert app. induction Hev as [| e events He _ IH]; intros app; simpl.
    + exists app, []. repeat split. constructor.
    + assert (Hstep : exists a effs,
                 step app e = Ok (a, effs)
                 /\ paused a = paused app
                 /\ no_face_start_time a = no_face_start_time app
                 /\ last_state a = last_state app
                 /\ count is_call_pause effs = 0%nat
                 /\ count is_call_resume effs = 0%nat
                 /\ count is_popup effs = 0%nat).
      { destruct He as [-> | [-> | ->]]; simpl.
        - exists app, []. rewrite Hclosed.
          destruct (face_detection_thread app), (stop_threads app); repeat split.
        - exists app, []. rewrite Hfail.
          destruct (face_detection_thread app), (stop_threads app); repeat split.
        - destruct (update_timer_keeps_machine app) as (H1 & H2 & H3 & H4).
          exists (fst (update_timer app)), (snd (update_timer app)).
          rewrite <- surjective_pairing.
          repeat split; try assumption;
            destruct H4 as [-> | [-> | ->]]; reflexivity. }
      destruct Hstep as (a & effs & Hs & H1 & H2 & H3 & H4).
      rewrite Hs. simpl.
      destruct (IH a) as (app' & trace & Hrun & K1 & K2 & K3 & K4).
      rewrite Hrun. simpl. exists app', (effs :: trace).
      repeat split; try congruence.
      constructor; [exact H4 | exact K4].
Qed.

Lemma no_sample_holds_state_witness :
  loop_body confirmed_absent ReadFailed = Ok (confirmed_absent, [])
  /\ loop_body confirmed_absent NotOpened = Ok (confirmed_absent, [])
  /\ (forall n,
        face_detection_loop confirmed_absent (repeat ReadFailed n)
        = Ok (confirmed_absent,
              repeat [] (if stop_threads confirmed_absent then 0%nat else n)))
  /\ exists app' trace,
       session confirmed_absent
         [Cycle ReadFailed; TimerFires; Cycle NotOpened; Cycle ReadFailed; TimerFires]
       = Ok (app', trace)
       /\ paused app' = paused confirmed_absent
       /\ no_face_start_time app' = no_face_start_time confirmed_absent
       /\ last_state app' = last_state confirmed_absent
       /\ Forall (fun effs =>
                    count is_call_pause effs = 0%nat
                    /\ count is_call_resume effs = 0%nat
                    /\ count is_popup effs = 0%nat) trace.
Proof.
  apply (no_sample_holds_state confirmed_absent
           [Cycle ReadFailed; TimerFires; Cycle NotOpened; Cycle ReadFailed; TimerFires]).
  repeat (apply Forall_cons; [unfold no_sample; auto |]). apply Forall_nil.
Defined.

(** ** The notification bookkeeping follows the countdown *)

Lemma handle_presence_consistent (app app' : DeepWorkTimer) (present : bool) (now : Q)
      (effs : list Effect) :
  handle_presence app present now = Ok (app', effs) ->
  consistent app ->
  consistent app'
  /\ face_detection_thread app' = face_detection_thread app
  /\ (timer_window app' = None <-> timer_window app = None).
Proof.
  unfold consistent, handle_presence.
  destruct app as [rs tw cam th tt st fd nf ls pv]; simpl.
  destruct tw as [w |].
  - destruct present; split_handler ls nf w now;
      intros H; inversion H; subst; clear H; simpl; intros Hcons;
      (split; [| split; [reflexivity | split; intros; congruence]]);
      try rewrite Hpaused;
      try (apply String.eqb_eq in Hls; subst);
      first [exact Hcons | split; intros; first [reflexivity | discriminate]].
  - destruct present, nf as [start |]; simpl;
      try destruct (Qle_bool 5 (now - start)); simpl;
      intros H; inversion H; subst; simpl; intros Hcons;
      (split; [exact Hcons | split; [reflexivity | tauto]]).
Qed.

Lemma loop_body_consistent (app app' : DeepWorkTimer) (p : Poll) (effs : list Effect) :
  loop_body app p = Ok (app', effs) ->
  consistent app ->
  consistent app'
  /\ face_detection_thread app' = face_detection_thread app
  /\ (timer_window app' = None <-> timer_window app = None).
Proof.
  unfold loop_body.
  destruct (camera app); [| intros H; inversion H; subst; tauto].
  destruct p as [| | s]; try (intros H; inversion H; subst; tauto).
  destruct (face_present (frame s) (faces s)) as [b |]; simpl; [| discriminate].
  destruct (preview app); simpl; [| discriminate].
  apply handle_presence_consistent.
Qed.

Lemma update_timer_consistent (app : DeepWorkTimer) :
  consistent app ->
  consistent (fst (update_timer app))
  /\ face_detection_thread (fst (update_timer app)) = face_detection_thread app
  /\ (timer_window (fst (update_timer app)) = None <-> timer_window app = None).
Proof.
  unfold consistent, update_timer.
  destruct (stop_threads app); [simpl; tauto |].
  destruct (timer_window app) as [w |] eqn:Htw; [| simpl; rewrite Htw; tauto].
  assert (Hp : TimerWindow.is_paused
                 (if negb (TimerWindow.is_paused w) then TimerWindow.tick w else w)
               = TimerWindow.is_paused w).
  { unfold TimerWindow.tick.
    destruct (TimerWindow.is_paused w) eqn:E; simpl; [exact E |].
    destruct (TimerWindow.remaining_seconds w >? 0); simpl;
      [reflexivity | exact E]. }
  destruct (TimerWindow.remaining_seconds
              (if negb (TimerWindow.is_paused w) then TimerWindow.tick w else w) <=? 0);
    simpl; rewrite Hp; intros Hcons;
    (split; [exact Hcons | split; [reflexivity | split; intros; congruence]]).
Qed.

Lemma step_consistent (app : DeepWorkTimer) (e : Event) :
  consistent app ->
  (timer_window app = None -> face_detection_thread app = None) ->
  exists app' effs,
    step app e = Ok (app', effs)
    /\ consistent app'
    /\ (timer_window app' = None -> face_detection_thread app' = None)
    /\ (timer_window app <> None -> timer_window app' <> None).
Proof.
  intros Hcons Hth.
  destruct e as [p |]; simpl.
  - destruct (face_detection_thread app) eqn:Hthread; [| exists app, []; auto].
    destruct (stop_threads app); [exists app, []; rewrite Hthread; auto |].
    assert (Hw : timer_window app <> None).
    { intros Hnone. specialize (Hth Hnone). congruence. }
    destruct (loop_body_total app p Hw) as (app' & effs & Hb & Hw' & _).
    destruct (loop_body_consistent app app' p effs Hb Hcons) as (Hc' & Ht' & _).
    exists app', effs.
    split; [exact Hb | split; [exact Hc' | split]].
    + intros Hnone. contradiction.
    + intros _. exact Hw'.
  - destruct (update_timer_consistent app Hcons) as (Hc' & Ht' & Hw').
    exists (fst (update_timer app)), (snd (update_timer app)).
    rewrite <- surjective_pairing.
    split; [reflexivity | split; [exact Hc' | split]].
    + intros Hnone. rewrite Ht'. apply Hth, Hw', Hnone.
    + intros Hw Hnone. apply Hw, Hw', Hnone.
Qed.

Lemma session_consistent (events : list Event) :
  forall app,
    consistent app ->
    (timer_window app = None -> face_detection_thread app = None) ->
    exists app' trace,
      session app events = Ok (app', trace)
      /\ consistent app'
      /\ (timer_window app <> None -> timer_window app' <> None).
Proof.
  induction events as [| e events IH]; intros app Hcons Hth; simpl.
  - exists app, []. auto.
  - destruct (step_consistent app e Hcons Hth) as (a & effs & Hs & Hc & Ht & Hw).
    rewrite Hs. simpl.
    destruct (IH a Hc Ht) as (app' & trace & Hrun & Hc' & Hw').
    rewrite Hrun. simpl. exists app', (effs :: trace). auto.
Qed.

Lemma start_timer_consistent (entry : option Z) (camera_opens : bool) :
  consistent (fst (start_timer init entry camera_opens))
  /\ (timer_window (fst (start_timer init entry camera_opens)) = None ->
      face_detection_thread (fst (start_timer init entry camera_opens)) = None)
  /\ (forall minutes,
        entry = Some minutes -> 1 <= minutes <= 999 -> camera_opens = true ->
        timer_window (fst (start_timer init entry camera_opens)) <> None).
Proof.
  unfold start_timer.
  destruct entry as [minutes |]; [| simpl; repeat split; intros; discriminate].
  destruct (Z.leb_spec minutes 0) as [Hlow | Hlow]; simpl.
  - repeat split. intros m Hm Hrange. inversion Hm; subst. lia.
  - destruct (Z.gtb_spec minutes 999) as [Hhigh | Hhigh]; simpl.
    + repeat split. intros m Hm Hrange. inversion Hm; subst. lia.
    + destruct camera_opens; simpl.
      * unfold update_timer, TimerWindow.tick. simpl.
        destruct (minutes * 60 >? 0); simpl;
          match goal with
          | |- context [?a <=? 0] => destruct (a <=? 0)
          end; simpl;
          (split; [split; intros; discriminate | split; intros; discriminate]).
      * split; [split; intros; discriminate | split; intros; discriminate].
Qed.

(** C10. Whatever is typed into the duration field and whether or not the
    camera opens, after [start_timer] and after every further event of the
    session (polling cycles and countdown callbacks in any order) the
    computation has not raised and [last_state] is ["paused"] exactly when
    the timer window's [is_paused] flag is set; when the session did start,
    the timer window exists, so the equivalence is about a real flag. *)
Theorem last_state_tracks_is_paused
        (entry : option Z) (camera_opens : bool) (events : list Event) :
  exists app' trace,
    session (fst (start_timer init entry camera_opens)) events = Ok (app', trace)
    /\ consistent app'
    /\ forall minutes,
         entry = Some minutes -> 1 <= minutes <= 999 -> camera_opens = true ->
         exists w,
           timer_window app' = Some w
           /\ (last_state app' = "paused"%string <-> TimerWindow.is_paused w = true).
Proof.
  destruct (start_timer_consistent entry camera_opens) as (Hcons & Hth & Hw).
  destruct (session_consistent events _ Hcons Hth) as (app' & trace & Hrun & Hc & Hw').
  exists app', trace. split; [exact Hrun | split; [exact Hc |]].
  intros minutes He Hrange Hopen.
  specialize (Hw' (Hw minutes He Hrange Hopen)).
  unfold consistent in Hc.
  destruct (timer_window app') as [w |]; [| congruence].
  exists w. split; [reflexivity | exact Hc].
Qed.

(** ** A camera that does not open *)

(** C8. With a valid duration (25 minutes) and a camera that does not open,
    [start_timer] reports the error, starts no thread and schedules no
    countdown callback; but it has already hidden the input window, created
    the timer window and stored the capture object, so the application is
    not in the state it had before the attempt.  A rejected duration, by
    contrast, leaves the state untouched. *)
Theorem camera_failure_leaves_timer_window :
  snd (start_timer init (Some 25) false) = [ShowError "Could not access webcam"]
  /\ face_detection_thread (fst (start_timer init (Some 25) false)) = None
  /\ root_shown (fst (start_timer init (Some 25) false)) = false
  /\ timer_window (fst (start_timer init (Some 25) false)) = Some (TimerWindow.init 1500)
  /\ camera (fst (start_timer init (Some 25) false)) = Some {| device := 0 |}
  /\ fst (start_timer init (Some 25) false) <> init
  /\ start_timer init (Some 0) false
     = (init, [ShowError "Please enter a value between 1 and 999 minutes"])
  /\ start_timer init None false = (init, [ShowError "Please enter a valid number"]).
Proof.
  repeat split. discriminate.
Qed.

(** ** Reachable states: a paused countdown has an active absence timer *)

Lemma handle_presence_paused_has_timer (app app' : DeepWorkTimer) (present : bool)
      (now : Q) (effs : list Effect) :
  handle_presence app present now = Ok (app', effs) ->
  (paused app = true -> no_face_start_time app <> None) ->
  paused app' = true -> no_face_start_time app' <> None.
Proof.
  unfold paused, handle_presence.
  destruct app as [rs tw cam th tt st fd nf ls pv]; simpl.
  destruct tw as [w |].
  - destruct present; split_handler ls nf w now;
      intros H; inversion H; subst; clear H; simpl; intros Hinv Hp;
      try discriminate; try congruence.
  - destruct present, nf as [start |]; simpl;
      try destruct (Qle_bool 5 (now - start)); simpl;
      intros H; inversion H; subst; simpl; intros Hinv Hp; discriminate.
Qed.

Lemma step_paused_has_timer (app app' : DeepWorkTimer) (e : Event) (effs : list Effect) :
  step app e = Ok (app', effs) ->
  (paused app = true -> no_face_start_time app <> None) ->
  paused app' = true -> no_face_start_time app' <> None.
Proof.
  destruct e as [p |]; simpl.
  - destruct (face_detection_thread app); [| intros H; inversion H; subst; auto].
    destruct (stop_threads app); [intros H; inversion H; subst; auto |].
    unfold loop_body.
    destruct (camera app); [| intros H; inversion H; subst; auto].
    destruct p as [| | s];
      [intros H; inversion H; subst; auto | intros H; inversion H; subst; auto |].
    destruct (face_present (frame s) (faces s)) as [b |]; simpl; [| discriminate].
    destruct (preview app); simpl; [| discriminate].
    exact (handle_presence_paused_has_timer app app' b (current_time s) effs).
  - destruct (update_timer_keeps_machine app) as (Hp & Hn & _).
    intros H. inversion H as [Hu]. rewrite Hu in Hp, Hn. simpl in Hp, Hn.
    rewrite Hp, Hn. auto.
Qed.

(** In every state a session reaches, a cleared absence timer goes with a
    running countdown: the state a below-threshold run starts from. *)
Lemma reachable_cleared_timer_is_running
      (entry : option Z) (camera_opens : bool) (events : list Event)
      (app' : DeepWorkTimer) (trace : list (list Effect)) :
  session (fst (start_timer init entry camera_opens)) events = Ok (app', trace) ->
  no_face_start_time app' = None ->
  paused app' = false.
Proof.
  assert (Hstart : paused (fst (start_timer init entry camera_opens)) = true ->
                   no_face_start_time (fst (start_timer init entry camera_opens)) <> None).
  { destruct (start_timer_consistent entry camera_opens) as (Hcons & _).
    unfold consistent, paused in *.
    destruct (timer_window (fst (start_timer init entry camera_opens))) as [w |];
      [| discriminate].
    intros Hp. apply Hcons in Hp.
    assert (Hls : last_state (fst (start_timer init entry camera_opens)) = "running"%string).
    { unfold start_timer. destruct entry as [m |]; [| reflexivity].
      destruct ((m <=? 0) || (m >? 999)); [reflexivity |].
      destruct camera_opens; simpl; [| reflexivity].
      destruct (update_timer_keeps_machine
                  (set_face_detection_thread
                     (set_stop_threads
                        (set_camera
                           (set_timer_window (set_root_shown init false)
                              (Some (TimerWindow.init (m * 60))))
                           (Some {| device := 0 |})) false)
                     (Some FaceDetectionThread))) as (_ & _ & Hl & _).
      destruct (update_timer _) as [a effs]. exact Hl. }
    rewrite Hls in Hp. discriminate. }
  revert Hstart. generalize (fst (start_timer init entry camera_opens)).
  revert trace. induction events as [| e events IH]; intros trace app Hinv; simpl.
  - intros H. inversion H; subst. intros Hnone.
    destruct (paused app') eqn:Hp; [| reflexivity].
    exfalso. apply (Hinv eq_refl). exact Hnone.
  - destruct (step app e) as [[a effs] |] eqn:Hs; simpl; [| discriminate].
    destruct (session a events) as [[a' tr] |] eqn:Hrun; simpl; [| discriminate].
    intros H. inversion H; subst.
    apply (IH tr a); [| exact Hrun].
    apply (step_paused_has_timer app a e effs Hs Hinv).
Qed.

(** * Further properties *)

(** ** The label of the timer window *)

(** X1. For every value of [remaining_seconds], the three numbers
    [update_display] shows add up to it again
    ([hours * 3600 + minutes * 60 + seconds]), minutes and seconds lie in
    0..59, and the hours are non-negative exactly when the value is. *)
Theorem display_decomposes (w : TimerWindow.t) :
  let '(hours, minutes, seconds) := TimerWindow.display w in
  hours * 3600 + minutes * 60 + seconds = TimerWindow.remaining_seconds w
  /\ 0 <= minutes < 60
  /\ 0 <= seconds < 60
  /\ (0 <= hours <-> 0 <= TimerWindow.remaining_seconds w).
Proof.
  unfold TimerWindow.display.
  set (r := TimerWindow.remaining_seconds w).
  pose proof (Z.div_mod r 3600 ltac:(lia)) as H1.
  pose proof (Z.mod_pos_bound r 3600 ltac:(lia)) as H2.
  pose proof (Z.div_mod (r mod 3600) 60 ltac:(lia)) as H3.
  pose proof (Z.mod_pos_bound (r mod 3600) 60 ltac:(lia)) as H4.
  pose proof (Z.mod_pos_bound r 60 ltac:(lia)) as H5.
  assert (H6 : (r mod 3600) mod 60 = r mod 60).
  { replace 3600 with (60 * 60) by reflexivity.
    rewrite Z.rem_mul_r by lia.
    rewrite (Z.mul_comm 60 ((r / 60) mod 60)), Z.mod_add by lia.
    apply Z.mod_mod. lia. }
  assert (H7 : 0 <= (r mod 3600) / 60 < 60).
  { split; [apply Z.div_pos; lia | apply Z.div_lt_upper_bound; lia]. }
  repeat split; lia.
Qed.

Lemma string_length_append (s1 s2 : string) :
  String.length (s1 ++ s2) = (String.length s1 + String.length s2)%nat.
Proof.
  induction s1 as [| c s1 IH]; simpl; [reflexivity | rewrite IH; reflexivity].
Qed.

Lemma format_02d_two_characters (n : Z) :
  0 <= n < 100 -> String.length (format_02d n) = 2%nat.
Proof.
  intros Hn.
  assert (H : forallb (fun k => Nat.eqb (String.length (format_02d (Z.of_nat k))) 2)
                (seq 0 100) = true) by (vm_compute; reflexivity).
  rewrite forallb_forall in H.
  specialize (H (Z.to_nat n)). rewrite Z2Nat.id in H by lia.
  apply Nat.eqb_eq, H, in_seq. lia.
Qed.

Lemma timer_text_length (w : TimerWindow.t) :
  0 <= TimerWindow.remaining_seconds w < 360000 ->
  String.length (timer_text w) = 8%nat.
Proof.
  intros Hr. unfold timer_text, TimerWindow.display.
  rewrite !string_length_append.
  rewrite !format_02d_two_characters; [reflexivity | | |].
  - pose proof (Z.mod_pos_bound (TimerWindow.remaining_seconds w) 60 ltac:(lia)). lia.
  - pose proof (Z.mod_pos_bound (TimerWindow.remaining_seconds w) 3600 ltac:(lia)).
    split; [apply Z.div_pos; lia | apply Z.div_lt_upper_bound; lia].
  - split; [apply Z.div_pos; lia | apply Z.div_lt_upper_bound; lia].
Qed.

(** ** The countdown never grows *)

Lemma handle_presence_window (app app' : DeepWorkTimer) (present : bool) (now : Q)
      (effs : list Effect) (w : TimerWindow.t) :
  handle_presence app present now = Ok (app', effs) ->
  timer_window app = Some w ->
  exists w',
    timer_window app' = Some w'
    /\ TimerWindow.remaining_seconds w' = TimerWindow.remaining_seconds w
    /\ TimerWindow.total_seconds w' = TimerWindow.total_seconds w.
Proof.
  unfold handle_presence.
  destruct app as [rs tw cam th tt st fd nf ls pv]; simpl.
  intros H Htw. inversion Htw; subst tw. revert H.
  destruct present; split_handler ls nf w now;
    intros H; inversion H; subst; simpl; eexists; repeat split.
Qed.

Lemma step_window (app app' : DeepWorkTimer) (e : Event) (effs : list Effect)
      (w : TimerWindow.t) :
  step app e = Ok (app', effs) ->
  timer_window app = Some w ->
  0 <= TimerWindow.remaining_seconds w ->
  exists w',
    timer_window app' = Some w'
    /\ 0 <= TimerWindow.remaining_seconds w' <= TimerWindow.remaining_seconds w
    /\ TimerWindow.total_seconds w' = TimerWindow.total_seconds w.
Proof.
  intros Hs Htw Hr.
  assert (Hsame : forall a, a = app -> exists w',
               timer_window a = Some w'
               /\ 0 <= TimerWindow.remaining_seconds w' <= TimerWindow.remaining_seconds w
               /\ TimerWindow.total_seconds w' = TimerWindow.total_seconds w).
  { intros a ->. exists w. repeat split; [exact Htw | lia | lia]. }
  destruct e as [p |]; simpl in Hs.
  - destruct (face_detection_thread app); [| inversion Hs; subst; auto].
    destruct (stop_threads app); [inversion Hs; subst; auto |].
    unfold loop_body in Hs.
    destruct (camera app); [| inversion Hs; subst; auto].
    destruct p as [| | s]; [inversion Hs; subst; auto | inversion Hs; subst; auto |].
    destruct (face_present (frame s) (faces s)) as [b |]; simpl in Hs; [| discriminate].
    destruct (preview app); simpl in Hs; [| discriminate].
    destruct (handle_presence_window app app' b (current_time s) effs w Hs Htw)
      as (w' & Hw' & Hr' & Ht').
    exists w'. repeat split; [exact Hw' | lia | lia | exact Ht'].
  - inversion Hs as [Hu]. clear Hs. unfold update_timer in Hu.
    destruct (stop_threads app); [inversion Hu; subst; auto |].
    rewrite Htw in Hu.
    assert (Hw1 : 0 <= TimerWindow.remaining_seconds
                         (if negb (TimerWindow.is_paused w) then TimerWindow.tick w else w)
                  <= TimerWindow.remaining_seconds w
                  /\ TimerWindow.total_seconds
                       (if negb (TimerWindow.is_paused w) then TimerWindow.tick w else w)
                     = TimerWindow.total_seconds w).
    { unfold TimerWindow.tick.
      destruct (TimerWindow.is_paused w); simpl; [lia |].
      destruct (Z.gtb_spec (TimerWindow.remaining_seconds w) 0); simpl; lia. }
    destruct (TimerWindow.remaining_seconds
                (if negb (TimerWindow.is_paused w) then TimerWindow.tick w else w) <=? 0);
      inversion Hu; subst; simpl; eexists; (split; [reflexivity | exact Hw1]).
Qed.

Lemma session_window (events : list Event) :
  forall app app' trace w,
    session app events = Ok (app', trace) ->
    timer_window app = Some w ->
    0 <= TimerWindow.remaining_seconds w ->
    exists w',
      timer_window app' = Some w'
      /\ 0 <= TimerWindow.remaining_seconds w' <= TimerWindow.remaining_seconds w
      /\ TimerWindow.total_seconds w' = TimerWindow.total_seconds w.
Proof.
  induction events as [| e events IH]; intros app app' trace w Hrun Htw Hr; simpl in Hrun.
  - inversion Hrun; subst. exists w. repeat split; [exact Htw | lia | lia].
  - destruct (step app e) as [[a effs] |] eqn:Hs; simpl in Hrun; [| discriminate].
    destruct (session a events) as [[a' tr] |] eqn:Hrest; simpl in Hrun; [| discriminate].
    inversion Hrun; subst.
    destruct (step_window app a e effs w Hs Htw Hr) as (w1 & Hw1 & Hr1 & Ht1).
    destruct (IH a app' tr w1 Hrest Hw1 ltac:(lia)) as (w' & Hw' & Hr' & Ht').
    exists w'. repeat split; [exact Hw' | lia | lia | congruence].
Qed.

(** ** Starting a session *)

Lemma start_timer_accepted (minutes : Z) (camera_opens : bool) :
  1 <= minutes <= 999 ->
  exists w,
    timer_window (fst (start_timer init (Some minutes) camera_opens)) = Some w
    /\ TimerWindow.total_seconds w = minutes * 60
    /\ TimerWindow.remaining_seconds w
       = (if camera_opens then minutes * 60 - 1 else minutes * 60)
    /\ TimerWindow.is_paused w = false
    /\ stop_threads (fst (start_timer init (Some minutes) camera_opens)) = false
    /\ camera (fst (start_timer init (Some minutes) camera_opens)) <> None
    /\ no_face_start_time (fst (start_timer init (Some minutes) camera_opens)) = None
    /\ snd (start_timer init (Some minutes) camera_opens)
       = (if camera_opens then [ThreadStart; After 1000 UpdateTimer]
          else [ShowError "Could not access webcam"]).
Proof.
  intros Hm. unfold start_timer.
  destruct (Z.leb_spec minutes 0) as [Hlow | _]; [lia |].
  destruct (Z.gtb_spec minutes 999) as [Hhigh | _]; [lia |]. simpl.
  destruct camera_opens; simpl.
  - unfold update_timer, TimerWindow.tick. simpl.
    destruct (Z.gtb_spec (minutes * 60) 0) as [_ | Hneg]; [| lia]. simpl.
    destruct (Z.leb_spec (minutes * 60 - 1) 0) as [Hzero | _]; [lia |]. simpl.
    eexists. repeat split. discriminate.
  - eexists. repeat split. discriminate.
Qed.

Lemma session_from_start (entry : option Z) (camera_opens : bool) (events : list Event) :
  exists app' trace,
    session (fst (start_timer init entry camera_opens)) events = Ok (app', trace).
Proof.
  destruct (start_timer_consistent entry camera_opens) as (Hcons & Hth & _).
  destruct (session_consistent events _ Hcons Hth) as (app' & trace & Hrun & _).
  exists app', trace. exact Hrun.
Qed.

(** X2. A duration of 1 to 999 minutes and a camera that opens: [start_timer]
    hides the input window, creates the countdown, starts the detection
    thread and runs the first countdown callback at once, so the countdown
    already stands at [minutes * 60 - 1] seconds when [start_timer] returns,
    with the next callback scheduled 1000 ms later. *)
Theorem start_timer_first_tick (minutes : Z) :
  1 <= minutes <= 999 ->
  start_timer init (Some minutes) true
  = (set_timer_window
       (set_face_detection_thread
          (set_stop_threads
             (set_camera
                (set_timer_window (set_root_shown init false)
                   (Some (TimerWindow.init (minutes * 60))))
                (Some {| device := 0 |}))
             false)
          (Some FaceDetectionThread))
       (Some {| TimerWindow.total_seconds := minutes * 60;
                TimerWindow.remaining_seconds := minutes * 60 - 1;
                TimerWindow.is_paused := false;
                TimerWindow.is_running := true |}),
     [ThreadStart; After 1000 UpdateTimer]).
Proof.
  intros Hm. unfold start_timer.
  destruct (Z.leb_spec minutes 0) as [Hlow | _]; [lia |].
  destruct (Z.gtb_spec minutes 999) as [Hhigh | _]; [lia |]. simpl.
  unfold update_timer, TimerWindow.tick. simpl.
  destruct (Z.gtb_spec (minutes * 60) 0) as [_ | Hneg]; [| lia]. simpl.
  destruct (Z.leb_spec (minutes * 60 - 1) 0) as [Hzero | _]; [lia |].
  reflexivity.
Qed.

Lemma start_timer_first_tick_witness :
  start_timer init (Some 1) true
  = (set_timer_window
       (set_face_detection_thread
          (set_stop_threads
             (set_camera
                (set_timer_window (set_root_shown init false)
                   (Some (TimerWindow.init (1 * 60))))
                (Some {| device := 0 |}))
             false)
          (Some FaceDetectionThread))
       (Some {| TimerWindow.total_seconds := 1 * 60;
                TimerWindow.remaining_seconds := 1 * 60 - 1;
                TimerWindow.is_paused := false;
                TimerWindow.is_running := true |}),
     [ThreadStart; After 1000 UpdateTimer]).
Proof.
  apply (start_timer_first_tick 1). lia.
Defined.

(** X3. [start_timer] starts the detection thread exactly when the entry is
    a number from 1 to 999 and the camera opens; an entry that is not a
    number, or lies outside 1..999, changes nothing in the application and
    shows exactly one error dialog, whatever the state and the camera. *)
Theorem start_timer_accepts_1_to_999
        (app : DeepWorkTimer) (entry : option Z) (camera_opens : bool) :
  (count is_thread_start (snd (start_timer app entry camera_opens)) = 1%nat
   <-> (exists minutes, entry = Some minutes /\ 1 <= minutes <= 999)
       /\ camera_opens = true)
  /\ (count is_thread_start (snd (start_timer app entry camera_opens)) = 0%nat
      \/ count is_thread_start (snd (start_timer app entry camera_opens)) = 1%nat)
  /\ ((forall minutes, entry = Some minutes -> minutes < 1 \/ 999 < minutes) ->
      exists message,
        start_timer app entry camera_opens = (app, [ShowError message])).
Proof.
  unfold start_timer.
  destruct entry as [minutes |].
  - destruct (Z.leb_spec minutes 0) as [Hlow | Hlow]; simpl.
    + split; [| split; [left; reflexivity | intros _; eexists; reflexivity]].
      split; [discriminate |].
      intros ((m & Hm & Hr) & _). inversion Hm; subst. lia.
    + destruct (Z.gtb_spec minutes 999) as [Hhigh | Hhigh]; simpl.
      * split; [| split; [left; reflexivity | intros _; eexists; reflexivity]].
        split; [discriminate |].
        intros ((m & Hm & Hr) & _). inversion Hm; subst. lia.
      * assert (Hcount : forall a,
                   count is_thread_start (ThreadStart :: snd (update_timer a)) = 1%nat).
        { intros a. destruct (update_timer_keeps_machine a) as (_ & _ & _ & Heffs).
          destruct Heffs as [-> | [-> | ->]]; reflexivity. }
        destruct camera_opens; simpl.
        -- destruct (update_timer _) as [a effs] eqn:Hu.
           specialize (Hcount (set_face_detection_thread
                                 (set_stop_threads
                                    (set_camera
                                       (set_timer_window (set_root_shown app false)
                                          (Some (TimerWindow.init (minutes * 60))))
                                       (Some {| device := 0 |})) false)
                                 (Some FaceDetectionThread))).
           rewrite Hu in Hcount. simpl in Hcount. simpl.
           split; [| split; [right; exact Hcount |]].
           ++ split; [| intros _; exact Hcount].
              intros _. split; [exists minutes; split; [reflexivity | lia] | reflexivity].
           ++ intros Hout. destruct (Hout minutes eq_refl); lia.
        -- split; [| split; [left; reflexivity |]].
           ++ split; [discriminate | intros (_ & Hopen); discriminate].
           ++ intros Hout. destruct (Hout minutes eq_refl); lia.
  - simpl. split; [| split; [left; reflexivity | intros _; eexists; reflexivity]].
    split; [discriminate |].
    intros ((m & Hm & _) & _). discriminate.
Qed.

(** ** Once [stop_threads] is set *)

Lemma stopped_step (app : DeepWorkTimer) (e : Event) :
  stop_threads app = true -> step app e = Ok (app, []).
Proof.
  intros Hstop. destruct e as [p |]; simpl.
  - rewrite Hstop. destruct (face_detection_thread app); reflexivity.
  - unfold update_timer. rewrite Hstop. reflexivity.
Qed.

Lemma stopped_frozen (events : list Event) (app : DeepWorkTimer) :
  stop_threads app = true ->
  session app events = Ok (app, repeat [] (List.length events)).
Proof.
  intros Hstop. induction events as [| e events IH]; simpl; [reflexivity |].
  rewrite (stopped_step app e Hstop). simpl. rewrite IH. reflexivity.
Qed.

Lemma count_app (p : Effect -> bool) (l1 l2 : list Effect) :
  count p (l1 ++ l2) = (count p l1 + count p l2)%nat.
Proof.
  unfold count. rewrite filter_app, length_app. reflexivity.
Qed.

Lemma count_concat_repeat_nil (p : Effect -> bool) (n : nat) :
  count p (List.concat (repeat [] n)) = 0%nat.
Proof.
  rewrite concat_repeat_nil. reflexivity.
Qed.


(** ** The completion dialog *)

Lemma handle_presence_no_completion (app app' : DeepWorkTimer) (present : bool)
      (now : Q) (effs : list Effect) :
  handle_presence app present now = Ok (app', effs) ->
  count is_completion effs = 0%nat /\ remaining app' = remaining app.
Proof.
  unfold handle_presence, remaining.
  destruct app as [rs tw cam th tt st fd nf ls pv]; simpl.
  destruct tw as [w |].
  - destruct present; split_handler ls nf w now;
      intros H; inversion H; subst; simpl; split; reflexivity.
  - destruct present, nf as [start |]; simpl;
      try destruct (Qle_bool 5 (now - start)); simpl;
      intros H; inversion H; subst; simpl; split; reflexivity.
Qed.

Lemma step_completion (app app' : DeepWorkTimer) (e : Event) (effs : list Effect) :
  step app e = Ok (app', effs) ->
  (count is_completion effs = 0%nat /\ stop_threads app' = stop_threads app
   /\ remaining app' <= Z.max (remaining app) 0)
  \/ (count is_completion effs = 1%nat /\ stop_threads app = false
      /\ stop_threads app' = true /\ remaining app' <= 0).
Proof.
  destruct e as [p |]; simpl.
  - assert (Hidle : Ok (app, @nil Effect) = Ok (app', effs) ->
                    (count is_completion effs = 0%nat
                     /\ stop_threads app' = stop_threads app
                     /\ remaining app' <= Z.max (remaining app) 0)
                    \/ (count is_completion effs = 1%nat /\ stop_threads app = false
                        /\ stop_threads app' = true /\ remaining app' <= 0)).
    { intros H. inversion H; subst. left. repeat split. lia. }
    destruct (face_detection_thread app); [| exact Hidle].
    destruct (stop_threads app) eqn:Hstop; [exact Hidle |].
    unfold loop_body.
    destruct (camera app); [| exact Hidle].
    destruct p as [| | s]; [exact Hidle | exact Hidle |].
    destruct (face_present (frame s) (faces s)) as [b |]; simpl; [| discriminate].
    destruct (preview app); simpl; [| discriminate].
    intros H. left.
    destruct (handle_presence_no_completion app app' b (current_time s) effs H) as (Hc & Hr).
    rewrite (handle_presence_stop_threads app app' b (current_time s) effs H).
    repeat split; [exact Hc | exact Hstop | lia].
  - unfold update_timer, remaining.
    destruct (stop_threads app) eqn:Hstop;
      [intros H; inversion H; subst; left; repeat split; [exact Hstop | lia] |].
    destruct (timer_window app) as [w |] eqn:Htw;
      [| intros H; inversion H; subst; left; rewrite Htw;
         repeat split; [exact Hstop | lia]].
    assert (Hle : TimerWindow.remaining_seconds
                    (if negb (TimerWindow.is_paused w) then TimerWindow.tick w else w)
                  <= Z.max (TimerWindow.remaining_seconds w) 0).
    { unfold TimerWindow.tick.
      destruct (TimerWindow.is_paused w); simpl; [lia |].
      destruct (Z.gtb_spec (TimerWindow.remaining_seconds w) 0); simpl; lia. }
    destruct (Z.leb_spec
                (TimerWindow.remaining_seconds
                   (if negb (TimerWindow.is_paused w) then TimerWindow.tick w else w)) 0)
      as [Hzero | Hpos];
      intros H; inversion H; subst; simpl.
    + right. repeat split. exact Hzero.
    + left. repeat split; [exact Hstop | exact Hle].
Qed.

Lemma session_completion (events : list Event) :
  forall app app' trace,
    session app events = Ok (app', trace) ->
    (count is_completion (List.concat trace) = 0%nat
     /\ stop_threads app' = stop_threads app)
    \/ (count is_completion (List.concat trace) = 1%nat
        /\ stop_threads app = false
        /\ stop_threads app' = true /\ remaining app' <= 0).
Proof.
  induction events as [| e events IH]; intros app app' trace Hrun; simpl in Hrun.
  - inversion Hrun; subst. left. split; reflexivity.
  - destruct (step app e) as [[a effs] |] eqn:Hs; simpl in Hrun; [| discriminate].
    destruct (session a events) as [[a' tr] |] eqn:Hrest; simpl in Hrun; [| discriminate].
    inversion Hrun; subst. simpl. rewrite count_app.
    destruct (step_completion app a e effs Hs)
      as [(Hc & Hstop & _) | (Hc & Hstop & Hstop' & Hrem)].
    + rewrite Hc. simpl.
      destruct (IH a app' tr Hrest) as [(Hc' & Hs') | (Hc' & Hs0 & Hs' & Hr')].
      * left. split; [exact Hc' | congruence].
      * right. repeat split; [exact Hc' | congruence | exact Hs' | exact Hr'].
    + rewrite (stopped_frozen events a Hstop') in Hrest. inversion Hrest; subst.
      rewrite Hc, count_concat_repeat_nil.
      right. repeat split; [exact Hstop | exact Hstop' | exact Hrem].
Qed.

(** ** Counting down *)

Lemma timer_fires_nonneg (events : list Event) : 0 <= timer_fires events.
Proof.
  induction events as [| [p |] events IH]; cbn [timer_fires]; lia.
Qed.

Lemma set_timer_window_same (app : DeepWorkTimer) (w : TimerWindow.t) :
  timer_window app = Some w -> set_timer_window app (Some w) = app.
Proof.
  destruct app; simpl. intros ->. reflexivity.
Qed.

Lemma no_sample_step (app : DeepWorkTimer) (p : Poll) :
  p = NotOpened \/ p = ReadFailed -> step app (Cycle p) = Ok (app, []).
Proof.
  intros [-> | ->]; simpl; unfold loop_body;
    destruct (face_detection_thread app), (stop_threads app), (camera app); reflexivity.
Qed.

Lemma running_countdown (events : list Event) :
  forall app w,
    Forall never_absent events ->
    in_session app ->
    timer_window app = Some w ->
    TimerWindow.is_paused w = false ->
    0 <= TimerWindow.remaining_seconds w ->
    exists app' trace,
      session app events = Ok (app', trace)
      /\ remaining app' = Z.max 0 (TimerWindow.remaining_seconds w - timer_fires events)
      /\ paused app' = false
      /\ count is_completion (List.concat trace)
         = (if (0 <? timer_fires events)
               && (TimerWindow.remaining_seconds w <=? timer_fires events)
            then 1%nat else 0%nat)
      /\ count is_call_pause (List.concat trace) = 0%nat.
Proof.
  induction events as [| e events IH]; intros app w Hev Hin Htw Hrun Hr.
  - exists app, []. simpl. unfold remaining, paused. rewrite Htw.
    split; [reflexivity | split; [lia | split; [exact Hrun | split; reflexivity]]].
  - inversion Hev as [| ? ? He Hrest]; subst.
    pose proof (timer_fires_nonneg events) as Hk.
    destruct He as [[-> | [-> | ->]] | (s & -> & Hs)].
    + (* the camera is not open *)
      destruct (IH app w Hrest Hin Htw Hrun Hr) as (app' & trace & Hrun' & H1 & H2 & H3 & H4).
      exists app', ([] :: trace). cbn [session timer_fires].
      rewrite (no_sample_step app NotOpened) by auto. cbn [bind fst snd].
      rewrite Hrun'. cbn [bind fst snd].
      split; [reflexivity | split; [exact H1 | split; [exact H2 | split]]];
        [exact H3 | exact H4].
    + (* the read fails *)
      destruct (IH app w Hrest Hin Htw Hrun Hr) as (app' & trace & Hrun' & H1 & H2 & H3 & H4).
      exists app', ([] :: trace). cbn [session timer_fires].
      rewrite (no_sample_step app ReadFailed) by auto. cbn [bind fst snd].
      rewrite Hrun'. cbn [bind fst snd].
      split; [reflexivity | split; [exact H1 | split; [exact H2 | split]]];
        [exact H3 | exact H4].
    + (* the countdown callback *)
      destruct Hin as (Hstop & Hc & Hw).
      cbn [session step timer_fires]. unfold update_timer. rewrite Hstop, Htw, Hrun.
      cbn [negb]. unfold TimerWindow.tick. rewrite Hrun. cbn [negb andb].
      destruct (Z.gtb_spec (TimerWindow.remaining_seconds w) 0) as [Hpos | Hzero];
        cbn [TimerWindow.remaining_seconds].
      * destruct (Z.leb_spec (TimerWindow.remaining_seconds w - 1) 0) as [Hlast | Hmore].
        -- (* the last second *)
           cbn [bind fst snd].
           rewrite stopped_frozen by reflexivity. cbn [bind fst snd].
           eexists. eexists. split; [reflexivity |].
           cbn [List.concat]. rewrite !count_app, !count_concat_repeat_nil.
           unfold remaining, paused.
           cbn [timer_window set_stop_threads set_timer_window
                TimerWindow.remaining_seconds TimerWindow.is_paused count filter
                is_completion is_call_pause List.length Nat.add].
           destruct (Z.ltb_spec 0 (1 + timer_fires events)); [| lia].
           destruct (Z.leb_spec (TimerWindow.remaining_seconds w) (1 + timer_fires events));
             [| lia].
           cbn [andb].
           split; [lia | split; [first [exact Hrun | reflexivity] | split; reflexivity]].
        -- cbn [bind fst snd].
           match goal with
           | |- context [set_timer_window app (Some ?x)] => set (w1 := x)
           end.
           destruct (IH (set_timer_window app (Some w1)) w1 Hrest)
             as (app' & trace & Hrun' & H1 & H2 & H3 & H4);
             [repeat split; [exact Hstop | exact Hc | discriminate]
             | reflexivity | reflexivity
             | unfold w1; cbn [TimerWindow.remaining_seconds]; lia |].
           unfold w1 in H1, H3.
           rewrite Hrun'. cbn [bind fst snd].
           eexists. eexists. split; [reflexivity |].
           cbn [List.concat]. rewrite !count_app.
           cbn [TimerWindow.remaining_seconds] in H1, H3.
           rewrite H1, H2, H3, H4.
           cbn [count filter is_completion is_call_pause List.length Nat.add].
           destruct (Z.ltb_spec 0 (timer_fires events));
             destruct (Z.ltb_spec 0 (1 + timer_fires events));
             destruct (Z.leb_spec (TimerWindow.remaining_seconds w - 1) (timer_fires events));
             destruct (Z.leb_spec (TimerWindow.remaining_seconds w) (1 + timer_fires events));
             cbn [andb];
             (split; [lia | split; [reflexivity | split; [lia | reflexivity]]]).
      * (* nothing left to count *)
        destruct (Z.leb_spec (TimerWindow.remaining_seconds w) 0) as [_ | Hbad]; [| lia].
        cbn [bind fst snd].
        rewrite stopped_frozen by reflexivity. cbn [bind fst snd].
        eexists. eexists. split; [reflexivity |].
        cbn [List.concat]. rewrite !count_app, !count_concat_repeat_nil.
        unfold remaining, paused.
        cbn [timer_window set_stop_threads set_timer_window
             TimerWindow.remaining_seconds TimerWindow.is_paused count filter
             is_completion is_call_pause List.length Nat.add].
        destruct (Z.ltb_spec 0 (1 + timer_fires events)); [| lia].
        destruct (Z.leb_spec (TimerWindow.remaining_seconds w) (1 + timer_fires events));
          [| lia].
        cbn [andb].
        split; [lia | split; [first [exact Hrun | reflexivity] | split; reflexivity]].
    + (* a sample at or above the threshold *)
      assert (Hstep : step app (Cycle (Grabbed s)) = Ok (app, [])
                      \/ step app (Cycle (Grabbed s))
                         = Ok (set_no_face_start_time app None, [])).
      { destruct Hin as (Hstop & Hc & Hw). simpl.
        destruct (face_detection_thread app); [| left; reflexivity].
        rewrite Hstop, (loop_body_grabbed app s true Hc Hw Hs).
        right. apply (present_keeps_running app _ w Htw Hrun). }
      destruct Hstep as [Hstep | Hstep].
      * destruct (IH app w Hrest Hin Htw Hrun Hr)
          as (app' & trace & Hrun' & H1 & H2 & H3 & H4).
        exists app', ([] :: trace). cbn [session timer_fires].
        rewrite Hstep. cbn [bind fst snd]. rewrite Hrun'. cbn [bind fst snd].
        split; [reflexivity | split; [exact H1 | split; [exact H2 | split]]];
          [exact H3 | exact H4].
      * destruct (IH (set_no_face_start_time app None) w Hrest)
          as (app' & trace & Hrun' & H1 & H2 & H3 & H4);
          [destruct Hin as (Hstop & Hc & Hw); repeat split; assumption
          | exact Htw | exact Hrun | exact Hr |].
        exists app', ([] :: trace). cbn [session timer_fires].
        rewrite Hstep. cbn [bind fst snd]. rewrite Hrun'. cbn [bind fst snd].
        split; [reflexivity | split; [exact H1 | split; [exact H2 | split]]];
          [exact H3 | exact H4].
Qed.

(** X6. While no below-threshold sample is observed, a running countdown
    loses exactly one second per countdown callback until it reaches zero:
    after any such events the seconds left are
    [max 0 (remaining - callbacks)], the countdown is still not paused, no
    Pause was emitted, and the completion dialog has been shown (once)
    exactly when at least one callback ran and the callbacks reached the
    seconds that were left. *)
Theorem countdown_closed_form (app : DeepWorkTimer) (events : list Event) :
  Forall never_absent events ->
  in_session app ->
  paused app = false ->
  0 <= remaining app ->
  exists app' trace,
    session app events = Ok (app', trace)
    /\ remaining app' = Z.max 0 (remaining app - timer_fires events)
    /\ paused app' = false
    /\ count is_completion (List.concat trace)
       = (if (0 <? timer_fires events) && (remaining app <=? timer_fires events)
          then 1%nat else 0%nat)
    /\ count is_call_pause (List.concat trace) = 0%nat.
Proof.
  intros Hev Hin Hrun Hr.
  unfold paused, remaining in *.
  destruct (timer_window app) as [w |] eqn:Htw;
    [| destruct Hin as (_ & _ & Hw); congruence].
  destruct (running_countdown events app w Hev Hin Htw Hrun Hr)
    as (app' & trace & Hs & H1 & H2 & H3 & H4).
  exists app', trace. unfold paused, remaining in *. auto.
Qed.

Lemma countdown_closed_form_witness :
  exists app' trace,
    session started
      [TimerFires; Cycle (Grabbed (boxed 20 30 1)); TimerFires; Cycle ReadFailed; TimerFires]
    = Ok (app', trace)
    /\ remaining app'
       = Z.max 0 (remaining started
                  - timer_fires [TimerFires; Cycle (Grabbed (boxed 20 30 1)); TimerFires;
                                 Cycle ReadFailed; TimerFires])
    /\ paused app' = false
    /\ count is_completion (List.concat trace)
       = (if (0 <? timer_fires [TimerFires; Cycle (Grabbed (boxed 20 30 1)); TimerFires;
                                Cycle ReadFailed; TimerFires])
             && (remaining started
                 <=? timer_fires [TimerFires; Cycle (Grabbed (boxed 20 30 1)); TimerFires;
                                  Cycle ReadFailed; TimerFires])
          then 1%nat else 0%nat)
    /\ count is_call_pause (List.concat trace) = 0%nat.
Proof.
  apply (countdown_closed_form started
           [TimerFires; Cycle (Grabbed (boxed 20 30 1)); TimerFires; Cycle ReadFailed;
            TimerFires]).
  - repeat (apply Forall_cons;
            [first [left; unfold no_sample; auto; fail
                   | right; eexists; split; reflexivity] |]).
    apply Forall_nil.
  - exact started_in_session.
  - reflexivity.
  - vm_compute. discriminate.
Defined.

(** X7. A session of [minutes] minutes (1 to 999) whose user is never seen
    absent: after [k] countdown callbacks following [start_timer] the
    countdown shows [max 0 (minutes * 60 - 1 - k)] seconds, and the
    completion dialog has been shown exactly when [k >= minutes * 60 - 1];
    the first second is taken off by [start_timer] itself, so the session
    completes [minutes * 60 - 1] callbacks after it was started. *)
Theorem session_completes_after (minutes : Z) (events : list Event) :
  1 <= minutes <= 999 ->
  Forall never_absent events ->
  exists app' trace,
    session (fst (start_timer init (Some minutes) true)) events = Ok (app', trace)
    /\ remaining app' = Z.max 0 (minutes * 60 - 1 - timer_fires events)
    /\ count is_completion (List.concat trace)
       = (if minutes * 60 - 1 <=? timer_fires events then 1%nat else 0%nat)
    /\ (stop_threads app' = true <-> minutes * 60 - 1 <= timer_fires events).
Proof.
  intros Hm Hev.
  destruct (start_timer_accepted minutes true Hm)
    as (w & Hw & _ & Hrem & Hp & Hstop & Hcam & _).
  assert (Hin : in_session (fst (start_timer init (Some minutes) true))).
  { repeat split; [exact Hstop | exact Hcam | congruence]. }
  assert (Hr : 0 <= TimerWindow.remaining_seconds w) by lia.
  destruct (running_countdown events _ w Hev Hin Hw Hp Hr)
    as (app' & trace & Hs & H1 & _ & H3 & _).
  exists app', trace. rewrite Hrem in *.
  pose proof (timer_fires_nonneg events) as Hk.
  split; [exact Hs | split; [exact H1 | split]].
  - rewrite H3.
    destruct (Z.ltb_spec 0 (timer_fires events));
      destruct (Z.leb_spec (minutes * 60 - 1) (timer_fires events));
      try reflexivity; lia.
  - destruct (session_completion events _ app' trace Hs)
      as [(Hc & Hst) | (Hc & _ & Hst & _)];
      rewrite Hc in H3; rewrite Hst;
      destruct (Z.ltb_spec 0 (timer_fires events));
      destruct (Z.leb_spec (minutes * 60 - 1) (timer_fires events));
      cbn [andb] in H3; try discriminate;
      try (rewrite Hstop); split; intros; try lia; try reflexivity; try discriminate.
Qed.

Lemma session_completes_after_witness :
  exists app' trace,
    session (fst (start_timer init (Some 1) true)) (repeat TimerFires 59) = Ok (app', trace)
    /\ remaining app' = Z.max 0 (1 * 60 - 1 - timer_fires (repeat TimerFires 59))
    /\ count is_completion (List.concat trace)
       = (if 1 * 60 - 1 <=? timer_fires (repeat TimerFires 59) then 1%nat else 0%nat)
    /\ (stop_threads app' = true <-> 1 * 60 - 1 <= timer_fires (repeat TimerFires 59)).
Proof.
  apply (session_completes_after 1 (repeat TimerFires 59)).
  - lia.
  - apply Forall_forall. intros e He. apply repeat_spec in He. subst.
    left. unfold no_sample. auto.
Defined.

(** ** A paused countdown *)

(** X8. While the countdown is paused with time left and no sample at or
    above the threshold is observed, the timer window stays exactly as it
    is, whatever else happens: countdown callbacks only reschedule
    themselves, below-threshold samples and failed reads have no effect, and
    the session is not stopped. *)
Theorem paused_countdown_frozen (app : DeepWorkTimer) (events : list Event) :
  Forall never_present events ->
  in_session app ->
  paused app = true ->
  0 < remaining app ->
  exists app' trace,
    session app events = Ok (app', trace)
    /\ timer_window app' = timer_window app
    /\ last_state app' = last_state app
    /\ stop_threads app' = false
    /\ Forall (fun effs => effs = [] \/ effs = [After 1000 UpdateTimer]) trace.
Proof.
  intros Hev. revert app.
  induction Hev as [| e events He _ IH]; intros app Hin Hp Hr.
  - exists app, []. destruct Hin as (Hstop & _). repeat split; [exact Hstop | constructor].
  - assert (Hstep : exists a effs,
               step app e = Ok (a, effs)
               /\ timer_window a = timer_window app
               /\ last_state a = last_state app
               /\ in_session a
               /\ (effs = [] \/ effs = [After 1000 UpdateTimer])).
    { pose proof Hin as (Hstop & Hc & Hw).
      unfold paused, remaining in Hp, Hr.
      destruct (timer_window app) as [w |] eqn:Htw; [| discriminate].
      destruct He as [[-> | [-> | ->]] | (s & -> & Hs)].
      - exists app, []. rewrite no_sample_step by auto. auto 10.
      - exists app, []. rewrite no_sample_step by auto. auto 10.
      - exists app, [After 1000 UpdateTimer]. simpl. unfold update_timer.
        rewrite Hstop, Htw, Hp. cbn [negb].
        destruct (Z.leb_spec (TimerWindow.remaining_seconds w) 0); [lia |].
        rewrite (set_timer_window_same app w Htw). auto 10.
      - simpl. destruct (face_detection_thread app); [| exists app, []; auto 10].
        rewrite Hstop.
        assert (Hw' : timer_window app <> None) by congruence.
        rewrite (loop_body_grabbed app s false Hc Hw' Hs).
        destruct (no_face_start_time app) as [start |] eqn:Hnf.
        + rewrite (absent_stays_paused app _ start w Hnf Htw Hp).
          exists app, []. auto 10.
        + rewrite (absent_starts app _ Hnf).
          eexists. exists []. split; [reflexivity |].
          split; [exact Htw | split; [reflexivity | split; [| left; reflexivity]]].
          repeat split; [exact Hstop | exact Hc | exact Hw']. }
    destruct Hstep as (a & effs & Hs & Htw & Hls & Hin' & Heffs).
    destruct (IH a Hin') as (app' & trace & Hrun & K1 & K2 & K3 & K4).
    + unfold paused in *. rewrite Htw. exact Hp.
    + unfold remaining in *. rewrite Htw. exact Hr.
    + exists app', (effs :: trace). simpl. rewrite Hs. simpl. rewrite Hrun. simpl.
      repeat split; try congruence. constructor; assumption.
Qed.

Lemma paused_countdown_frozen_witness :
  exists app' trace,
    session confirmed_absent
      [TimerFires; Cycle (Grabbed (empty_frame 6)); TimerFires; Cycle ReadFailed]
    = Ok (app', trace)
    /\ timer_window app' = timer_window confirmed_absent
    /\ last_state app' = last_state confirmed_absent
    /\ stop_threads app' = false
    /\ Forall (fun effs => effs = [] \/ effs = [After 1000 UpdateTimer]) trace.
Proof.
  apply (paused_countdown_frozen confirmed_absent
           [TimerFires; Cycle (Grabbed (empty_frame 6)); TimerFires; Cycle ReadFailed]).
  - repeat (apply Forall_cons;
            [first [left; unfold no_sample; auto; fail
                   | right; eexists; split; reflexivity] |]).
    apply Forall_nil.
  - unfold in_session. vm_compute. repeat split; discriminate.
  - reflexivity.
  - reflexivity.
Defined.

(** ** What a session never changes *)

(** X9. In a session started with 1 to 999 minutes, whatever the camera
    does and whatever events follow, the timer window exists, its
    [total_seconds] stays [minutes * 60], and the seconds left stay between
    0 and that total. *)
Theorem countdown_within_total (minutes : Z) (camera_opens : bool) (events : list Event) :
  1 <= minutes <= 999 ->
  exists app' trace w,
    session (fst (start_timer init (Some minutes) camera_opens)) events = Ok (app', trace)
    /\ timer_window app' = Some w
    /\ TimerWindow.total_seconds w = minutes * 60
    /\ 0 <= TimerWindow.remaining_seconds w <= minutes * 60.
Proof.
  intros Hm.
  destruct (session_from_start (Some minutes) camera_opens events) as (app' & trace & Hrun).
  destruct (start_timer_accepted minutes camera_opens Hm) as (w & Hw & Htot & Hrem & _).
  assert (Hr0 : 0 <= TimerWindow.remaining_seconds w <= minutes * 60)
    by (rewrite Hrem; destruct camera_opens; lia).
  destruct (session_window events _ app' trace w Hrun Hw ltac:(lia)) as (w' & Hw' & Hr' & Ht').
  exists app', trace, w'. repeat split; try assumption; lia.
Qed.

Lemma countdown_within_total_witness :
  exists app' trace w,
    session (fst (start_timer init (Some 999) true))
      [TimerFires; Cycle (Grabbed (empty_frame 0)); TimerFires] = Ok (app', trace)
    /\ timer_window app' = Some w
    /\ TimerWindow.total_seconds w = 999 * 60
    /\ 0 <= TimerWindow.remaining_seconds w <= 999 * 60.
Proof.
  apply (countdown_within_total 999 true). lia.
Defined.

(** X10. In every state of such a session the text [update_display] writes
    has exactly eight characters: two for the hours, two for the minutes
    and two for the seconds, with a colon between them. *)
Theorem timer_label_has_eight_characters
        (minutes : Z) (camera_opens : bool) (events : list Event) :
  1 <= minutes <= 999 ->
  exists app' trace w,
    session (fst (start_timer init (Some minutes) camera_opens)) events = Ok (app', trace)
    /\ timer_window app' = Some w
    /\ String.length (timer_text w) = 8%nat.
Proof.
  intros Hm.
  destruct (session_from_start (Some minutes) camera_opens events) as (app' & trace & Hrun).
  destruct (start_timer_accepted minutes camera_opens Hm) as (w & Hw & Htot & Hrem & _).
  assert (Hr0 : 0 <= TimerWindow.remaining_seconds w <= minutes * 60)
    by (rewrite Hrem; destruct camera_opens; lia).
  destruct (session_window events _ app' trace w Hrun Hw ltac:(lia)) as (w' & Hw' & Hr' & Ht').
  exists app', trace, w'. split; [exact Hrun | split; [exact Hw' |]].
  apply timer_text_length. lia.
Qed.

Lemma timer_label_has_eight_characters_witness :
  exists app' trace w,
    session (fst (start_timer init (Some 999) false)) [TimerFires; TimerFires]
    = Ok (app', trace)
    /\ timer_window app' = Some w
    /\ String.length (timer_text w) = 8%nat.
Proof.
  apply (timer_label_has_eight_characters 999 false). lia.
Defined.

Example timer_text_of_a_fresh_25_minutes :
  timer_text (TimerWindow.init 1500) = "00:25:00"%string
  /\ timer_text (TimerWindow.init 59940) = "16:39:00"%string.
Proof. split; reflexivity. Qed.

(** X11. Once a duration of 1 to 999 minutes has been accepted, the
    window-close request is ignored in every state the session goes
    through, also when the camera did not open and no session is running;
    from the input screen, and after a rejected entry, the same request
    stops the threads and exits. *)
Theorem closing_ignored_after_start
        (minutes : Z) (camera_opens : bool) (events : list Event) :
  1 <= minutes <= 999 ->
  (exists app' trace,
     session (fst (start_timer init (Some minutes) camera_opens)) events = Ok (app', trace)
     /\ on_closing app' = (app', []))
  /\ forall entry,
       (forall k, entry = Some k -> k < 1 \/ 999 < k) ->
       on_closing (fst (start_timer init entry camera_opens))
       = (set_stop_threads init true,
          [DestroyAllWindows; RootQuit; RootDestroy; SysExit 0]).
Proof.
  intros Hm. split.
  - destruct (session_from_start (Some minutes) camera_opens events)
      as (app' & trace & Hrun).
    destruct (start_timer_accepted minutes camera_opens Hm) as (w & Hw & Htot & Hrem & _).
    assert (Hr0 : 0 <= TimerWindow.remaining_seconds w)
      by (rewrite Hrem; destruct camera_opens; lia).
    destruct (session_window events _ app' trace w Hrun Hw Hr0) as (w' & Hw' & _).
    exists app', trace. split; [exact Hrun |].
    unfold on_closing. rewrite Hw'. reflexivity.
  - intros entry Hout. unfold start_timer.
    destruct entry as [k |]; [| reflexivity].
    destruct (Hout k eq_refl) as [Hlow | Hhigh].
    + destruct (Z.leb_spec k 0); [reflexivity | lia].
    + destruct (Z.leb_spec k 0); [reflexivity |].
      destruct (Z.gtb_spec k 999); [reflexivity | lia].
Qed.

Lemma closing_ignored_after_start_witness :
  (exists app' trace,
     session (fst (start_timer init (Some 25) false)) [TimerFires; Cycle ReadFailed]
     = Ok (app', trace)
     /\ on_closing app' = (app', []))
  /\ forall entry,
       (forall k, entry = Some k -> k < 1 \/ 999 < k) ->
       on_closing (fst (start_timer init entry false))
       = (set_stop_threads init true,
          [DestroyAllWindows; RootQuit; RootDestroy; SysExit 0]).
Proof.
  apply (closing_ignored_after_start 25 false). lia.
Defined.

(** ** Window placement *)

(** X12. The notification popup, the error dialog and the completion dialog
    are placed where [center_window] puts a window of their size; that
    place leaves the same margin on both sides up to one pixel, left and
    top taking the smaller share.  The timer window (250 wide) ends 20
    pixels before the right edge of the screen. *)
Theorem dialogs_are_centered (screen_width screen_height width height : Z) :
  popup_position screen_width screen_height
  = center_window screen_width screen_height 300 80
  /\ error_position screen_width screen_height
     = center_window screen_width screen_height 300 150
  /\ completion_position screen_width screen_height
     = center_window screen_width screen_height 400 200
  /\ 0 <= (screen_width - width - fst (center_window screen_width screen_height width height))
          - fst (center_window screen_width screen_height width height) <= 1
  /\ 0 <= (screen_height - height
           - snd (center_window screen_width screen_height width height))
          - snd (center_window screen_width screen_height width height) <= 1
  /\ fst (timer_window_position screen_width) + 250 + 20 = screen_width.
Proof.
  unfold popup_position, error_position, completion_position, center_window,
    timer_window_position. cbn [fst snd].
  pose proof (Z.div_mod (screen_width - width) 2 ltac:(lia)).
  pose proof (Z.mod_pos_bound (screen_width - width) 2 ltac:(lia)).
  pose proof (Z.div_mod (screen_height - height) 2 ltac:(lia)).
  pose proof (Z.mod_pos_bound (screen_height - height) 2 ltac:(lia)).
  repeat split; try lia; f_equal.
  all: try (change (300 / 2) with 150); try (change (80 / 2) with 40).
  all: try (apply Z.div_unique with (r := screen_width mod 2);
            [pose proof (Z.mod_pos_bound screen_width 2 ltac:(lia)); lia
            | pose proof (Z.div_mod screen_width 2 ltac:(lia)); lia]).
  all: try (apply Z.div_unique with (r := screen_height mod 2);
            [pose proof (Z.mod_pos_bound screen_height 2 ltac:(lia)); lia
            | pose proof (Z.div_mod screen_height 2 ltac:(lia)); lia]).
Qed.

(** ** The confidence heuristic, in whole numbers *)

Lemma confidence_value (fr : Frame) (fs : list Rect) :
  fs <> [] ->
  Forall (fun f => 0 <= rect_w f * rect_h f < 2 ^ 31) fs ->
  exists m,
    In m fs
    /\ (forall f, In f fs -> rect_w f * rect_h f <= rect_w m * rect_h m)
    /\ confidence fr fs
       = Ok (Qmin 100 (inject_Z (rect_w m * rect_h m) / inject_Z (frame_area fr) * 1000)).
Proof.
  intros Hne Hfit.
  destruct (py_max_by_spec area_key fs Hne) as (m & Hm & Hin & Hmax).
  rewrite Forall_forall in Hfit.
  assert (Hkey : forall f, In f fs -> area_key f = rect_w f * rect_h f).
  { intros f Hf. unfold area_key, int32_mul. apply wrap32_small, Hfit, Hf. }
  exists m. split; [exact Hin | split].
  - intros f Hf. rewrite <- (Hkey f Hf), <- (Hkey m Hin). apply Hmax, Hf.
  - unfold confidence. rewrite Hm. simpl. unfold confidence_of.
    rewrite py_min_is_Qmin, (Hkey m Hin). reflexivity.
Qed.

Lemma ratio_nonneg (a : Z) (fr : Frame) :
  0 <= a -> (0 <= inject_Z a / inject_Z (frame_area fr) * 1000)%Q.
Proof.
  intros Ha. unfold frame_area, Qle, Qdiv, Qmult, Qinv, inject_Z. simpl. lia.
Qed.

Lemma ratio_reaches_30 (a : Z) (fr : Frame) :
  (30 <= inject_Z a / inject_Z (frame_area fr) * 1000)%Q
  <-> 3 * frame_area fr <= 100 * a.
Proof.
  unfold frame_area. rewrite <- Pos2Z.inj_mul.
  generalize (shape0 fr * shape1 fr)%positive. intros p.
  unfold Qle, Qdiv, Qmult, Qinv, inject_Z.
  cbn [Qnum Qden]. rewrite !Pos2Z.inj_mul. lia.
Qed.

(** X13. In a frame with at least one detected face (box areas fitting a
    signed 32-bit integer) the confidence lies between 0 and 100. *)
Theorem confidence_between_0_and_100 (fr : Frame) (fs : list Rect) :
  fs <> [] ->
  Forall (fun f => 0 <= rect_w f * rect_h f < 2 ^ 31) fs ->
  exists c, confidence fr fs = Ok c /\ (0 <= c)%Q /\ (c <= 100)%Q.
Proof.
  intros Hne Hfit.
  destruct (confidence_value fr fs Hne Hfit) as (m & Hin & _ & Hc).
  eexists. split; [exact Hc | split].
  - apply Q.min_glb; [discriminate |].
    apply ratio_nonneg. rewrite Forall_forall in Hfit. apply (Hfit m Hin).
  - apply Q.le_min_l.
Qed.

Lemma confidence_between_0_and_100_witness :
  exists c,
    confidence {| shape0 := 480; shape1 := 640 |}
      [ {| rect_x := 0; rect_y := 0; rect_w := 300; rect_h := 300 |} ] = Ok c
    /\ (0 <= c)%Q /\ (c <= 100)%Q.
Proof.
  apply (confidence_between_0_and_100 {| shape0 := 480; shape1 := 640 |}).
  - discriminate.
  - repeat constructor; simpl; lia.
Defined.

(** X14. The verdict in whole numbers: a frame counts as "face present"
    exactly when some detected box covers at least 3 percent of the pixels
    of the frame ([100 * width * height >= 3 * shape[0] * shape[1]]); with
    no detected box the verdict is "absent".  The order of the boxes plays
    no part. *)
Theorem present_iff_three_percent (fr : Frame) (fs : list Rect) :
  Forall (fun f => 0 <= rect_w f * rect_h f < 2 ^ 31) fs ->
  (face_present fr fs = Ok true
   <-> exists f,
         In f fs
         /\ 3 * (Z.pos (shape0 fr) * Z.pos (shape1 fr)) <= 100 * (rect_w f * rect_h f))
  /\ (face_present fr fs = Ok true \/ face_present fr fs = Ok false).
Proof.
  intros Hfit. change (Z.pos (shape0 fr) * Z.pos (shape1 fr)) with (frame_area fr).
  destruct fs as [| f0 fs'].
  - simpl. split; [| right; reflexivity].
    split; [discriminate | intros (f & [] & _)].
  - destruct (confidence_value fr (f0 :: fs') ltac:(discriminate) Hfit)
      as (m & Hin & Hmax & Hc).
    assert (Hv : face_present fr (f0 :: fs')
                 = Ok (Qle_bool 30
                         (Qmin 100 (inject_Z (rect_w m * rect_h m)
                                    / inject_Z (frame_area fr) * 1000)))).
    { unfold face_present. rewrite Hc. reflexivity. }
    rewrite Hv.
    split; [| destruct (Qle_bool 30 _); [left | right]; reflexivity].
    split.
    + intros H. inversion H as [Hb]. apply Qle_bool_iff in Hb.
      apply Q.min_glb_iff in Hb. destruct Hb as [_ Hb].
      apply ratio_reaches_30 in Hb. exists m. split; assumption.
    + intros (f & Hf & Hbig). f_equal. apply Qle_bool_iff.
      apply Q.min_glb; [discriminate |].
      apply ratio_reaches_30. specialize (Hmax f Hf). lia.
Qed.

Lemma present_iff_three_percent_witness :
  (face_present {| shape0 := 480; shape1 := 640 |}
     [ {| rect_x := 0; rect_y := 0; rect_w := 30; rect_h := 30 |};
       {| rect_x := 50; rect_y := 60; rect_w := 96; rect_h := 96 |} ] = Ok true
   <-> exists f,
         In f [ {| rect_x := 0; rect_y := 0; rect_w := 30; rect_h := 30 |};
                {| rect_x := 50; rect_y := 60; rect_w := 96; rect_h := 96 |} ]
         /\ 3 * (480 * 640) <= 100 * (rect_w f * rect_h f))
  /\ (face_present {| shape0 := 480; shape1 := 640 |}
        [ {| rect_x := 0; rect_y := 0; rect_w := 30; rect_h := 30 |};
          {| rect_x := 50; rect_y := 60; rect_w := 96; rect_h := 96 |} ] = Ok true
      \/ face_present {| shape0 := 480; shape1 := 640 |}
           [ {| rect_x := 0; rect_y := 0; rect_w := 30; rect_h := 30 |};
             {| rect_x := 50; rect_y := 60; rect_w := 96; rect_h := 96 |} ] = Ok false).
Proof.
  apply (present_iff_three_percent {| shape0 := 480; shape1 := 640 |}).
  repeat constructor; simpl; lia.
Defined.

(** ** What the polling loop and the countdown leave alone *)

Lemma handle_presence_frame (app app' : DeepWorkTimer) (present : bool) (now : Q)
      (effs : list Effect) :
  handle_presence app present now = Ok (app', effs) ->
  face_detected app' = face_detected app
  /\ show_webcam_preview app' = show_webcam_preview app
  /\ timer_thread app' = timer_thread app
  /\ camera app' = camera app
  /\ face_detection_thread app' = face_detection_thread app
  /\ root_shown app' = root_shown app.
Proof.
  unfold handle_presence.
  destruct app as [rs tw cam th tt st fd nf ls pv]; simpl.
  destruct tw as [w |].
  - destruct present; split_handler ls nf w now;
      intros H; inversion H; subst; simpl; repeat split.
  - destruct present, nf as [start |]; simpl;
      try destruct (Qle_bool 5 (now - start)); simpl;
      intros H; inversion H; subst; simpl; repeat split.
Qed.

Lemma step_frame (app app' : DeepWorkTimer) (e : Event) (effs : list Effect) :
  step app e = Ok (app', effs) ->
  face_detected app' = face_detected app
  /\ show_webcam_preview app' = show_webcam_preview app
  /\ timer_thread app' = timer_thread app
  /\ camera app' = camera app
  /\ face_detection_thread app' = face_detection_thread app
  /\ root_shown app' = root_shown app.
Proof.
  destruct e as [p |]; simpl.
  - destruct (face_detection_thread app) eqn:Hth;
      [| intros H; inversion H; subst; auto 10].
    destruct (stop_threads app); [intros H; inversion H; subst; auto 10 |].
    unfold loop_body.
    destruct (camera app) eqn:Hcam; [| intros H; inversion H; subst; auto 10].
    destruct p as [| | s];
      [intros H; inversion H; subst; auto 10 | intros H; inversion H; subst; auto 10 |].
    destruct (face_present (frame s) (faces s)) as [b |]; simpl; [| discriminate].
    destruct (preview app); simpl; [| discriminate].
    intros H.
    destruct (handle_presence_frame app app' b (current_time s) effs H)
      as (H1 & H2 & H3 & H4 & H5 & H6).
    repeat split; congruence.
  - unfold update_timer.
    destruct (stop_threads app); [intros H; inversion H; subst; auto 10 |].
    destruct (timer_window app) as [w |]; [| intros H; inversion H; subst; auto 10].
    destruct (TimerWindow.remaining_seconds _ <=? 0);
      intros H; inversion H; subst; simpl; auto 10.
Qed.

(** X15. Polling cycles and countdown callbacks, in any number and order
    and from any state, never touch the camera object, the thread handles,
    the visibility of the input window, the preview switch or the flag
    [face_detected] (which therefore keeps the value it was given at
    construction). *)
Theorem session_leaves_setup_alone
        (app app' : DeepWorkTimer) (events : list Event) (trace : list (list Effect)) :
  session app events = Ok (app', trace) ->
  face_detected app' = face_detected app
  /\ show_webcam_preview app' = show_webcam_preview app
  /\ timer_thread app' = timer_thread app
  /\ camera app' = camera app
  /\ face_detection_thread app' = face_detection_thread app
  /\ root_shown app' = root_shown app.
Proof.
  revert app trace. induction events as [| e events IH]; intros app trace Hrun;
    simpl in Hrun.
  - inversion Hrun; subst. auto 10.
  - destruct (step app e) as [[a effs] |] eqn:Hs; simpl in Hrun; [| discriminate].
    destruct (session a events) as [[a' tr] |] eqn:Hrest; simpl in Hrun; [| discriminate].
    inversion Hrun; subst.
    destruct (step_frame app a e effs Hs) as (H1 & H2 & H3 & H4 & H5 & H6).
    destruct (IH a tr Hrest) as (K1 & K2 & K3 & K4 & K5 & K6).
    repeat split; congruence.
Qed.

Lemma session_leaves_setup_alone_witness :
  face_detected confirmed_absent = face_detected started
  /\ show_webcam_preview confirmed_absent = show_webcam_preview started
  /\ timer_thread confirmed_absent = timer_thread started
  /\ camera confirmed_absent = camera started
  /\ face_detection_thread confirmed_absent = face_detection_thread started
  /\ root_shown confirmed_absent = root_shown started.
Proof.
  apply (session_leaves_setup_alone started confirmed_absent
           [Cycle (Grabbed (empty_frame 0)); Cycle (Grabbed (empty_frame 5))]
           [[]; [CallPause; After 0 (NotificationPopup paused_message)]]).
  vm_compute. reflexivity.
Defined.

(** ** How late a Pause can come *)

Lemma first_reaching (bound : Q) (l : list Sample) :
  (exists s, In s l /\ (bound <= current_time s)%Q) ->
  exists pre x post,
    l = pre ++ x :: post
    /\ Forall (fun s => (current_time s < bound)%Q) pre
    /\ (bound <= current_time x)%Q.
Proof.
  induction l as [| a l IH]; intros (s & Hin & Hs); [contradiction |].
  destruct (Qlt_le_dec (current_time a) bound) as [Hlt | Hle].
  - destruct Hin as [-> | Hin]; [exfalso; exact (Qlt_not_le _ _ Hlt Hs) |].
    destruct IH as (pre & x & post & -> & Hpre & Hx); [exists s; auto |].
    exists (a :: pre), x, post. repeat split; [constructor; assumption | exact Hx].
  - exists [], a, l. repeat split; [constructor | exact Hle].
Qed.

Lemma gap_at_first_reaching (gap bound : Q) (pre : list Sample) :
  forall prev x post,
    max_gap gap prev (pre ++ x :: post) ->
    Forall (fun s => (current_time s < bound)%Q) pre ->
    (prev < bound)%Q ->
    (current_time x < bound + gap)%Q.
Proof.
  induction pre as [| p pre IH]; intros prev x post Hgap Hpre Hprev; simpl in Hgap.
  - destruct Hgap as [Hx _]. lra.
  - destruct Hgap as [_ Hgap]. inversion Hpre; subst.
    apply (IH (current_time p) x post Hgap); assumption.
Qed.

Lemma absent_run_pauses_at (app : DeepWorkTimer) (start : Q) (pre post : list Sample)
      (x : Sample) :
  in_session app ->
  no_face_start_time app = Some start ->
  paused app = false ->
  Forall below_threshold (pre ++ x :: post) ->
  Forall (fun s => (current_time s < start + 5)%Q) pre ->
  (start + 5 <= current_time x)%Q ->
  exists app' effs,
    face_detection_loop app (map Grabbed (pre ++ x :: post))
    = Ok (app', repeat [] (List.length pre) ++ effs :: repeat [] (List.length post))
    /\ action_of effs = Some Pause
    /\ paused app' = true.
Proof.
  intros Hin Hs Hrun Hbelow Hpre Hx.
  pose proof Hin as (Hstop & Hc & Hw).
  apply Forall_app in Hbelow. destruct Hbelow as [Hbpre Hbpost].
  inversion Hbpost as [| ? ? Hbx Hbpost']; subst.
  rewrite map_app.
  rewrite (loop_app _ _ app app _ (run_waiting _ pre app Hin Hs Hbpre Hpre) Hstop).
  cbn [map face_detection_loop]. rewrite Hstop.
  rewrite (loop_body_grabbed app x false Hc Hw Hbx).
  unfold paused in Hrun. destruct (timer_window app) as [w |] eqn:Htw; [| congruence].
  destruct (absent_pauses app (current_time x) _ w Hs Htw Hrun Hx)
    as (effs & Hfire & Heffs).
  rewrite Hfire. cbn [bind fst snd].
  set (app2 := set_last_state (set_timer_window app (Some (TimerWindow.pause w))) "paused").
  assert (Hin2 : in_session app2) by (repeat split; simpl; congruence).
  rewrite (run_paused post app2 Hin2);
    [| simpl; congruence | reflexivity | exact Hbpost'].
  cbn [bind fst snd].
  exists app2, effs. split; [reflexivity | split; [| reflexivity]].
  destruct Heffs as [-> | ->]; reflexivity.
Qed.

(** X16. A below-threshold run that starts with no absence timer and a
    running countdown, whose samples follow one another at most [gap]
    seconds apart and reach 5 seconds after the first one: the Pause is
    emitted at a sample stamped at least 5 and less than [5 + gap] seconds
    after the first sample of the run, and at no other sample. *)
Theorem pause_within_one_gap
        (app : DeepWorkTimer) (first : Sample) (rest : list Sample) (gap : Q) :
  in_session app ->
  no_face_start_time app = None ->
  paused app = false ->
  Forall below_threshold (first :: rest) ->
  max_gap gap (current_time first) rest ->
  (exists s, In s rest /\ (current_time first + 5 <= current_time s)%Q) ->
  exists app' trace pre x post,
    rest = pre ++ x :: post
    /\ face_detection_loop app (map Grabbed (first :: rest)) = Ok (app', trace)
    /\ actions trace
       = repeat None (S (List.length pre)) ++ Some Pause :: repeat None (List.length post)
    /\ (current_time first + 5 <= current_time x)%Q
    /\ (current_time x < current_time first + 5 + gap)%Q.
Proof.
  intros Hin Hnone Hrun Hbelow Hgap Hreach.
  destruct (first_reaching _ rest Hreach) as (pre & x & post & -> & Hpre & Hx).
  pose proof Hin as (Hstop & Hc & Hw).
  inversion Hbelow as [| ? ? Hfirst Hrest]; subst.
  set (app1 := set_no_face_start_time app (Some (current_time first))).
  assert (Hin1 : in_session app1) by (repeat split; assumption).
  destruct (absent_run_pauses_at app1 (current_time first) pre post x Hin1 eq_refl Hrun
              Hrest Hpre Hx) as (app' & effs & Hloop & Hact & _).
  exists app', ([] :: repeat [] (List.length pre) ++ effs :: repeat [] (List.length post)),
    pre, x, post.
  split; [reflexivity | split; [| split; [| split; [exact Hx |]]]].
  - cbn [map face_detection_loop]. rewrite Hstop.
    rewrite (loop_body_grabbed app first false Hc Hw Hfirst), (absent_starts app _ Hnone).
    cbn [bind fst snd]. fold app1.
    change (face_detection_loop app1 (map Grabbed (pre ++ x :: post))
            = Ok (app', repeat [] (List.length pre) ++ effs :: repeat [] (List.length post)))
      in Hloop.
    rewrite Hloop. reflexivity.
  - unfold actions. cbn [map repeat List.app action_of]. rewrite map_app. cbn [map].
    fold (actions (repeat [] (List.length pre))).
    fold (actions (repeat [] (List.length post))).
    rewrite !actions_repeat_nil, Hact. reflexivity.
  - apply (gap_at_first_reaching gap (current_time first + 5) pre (current_time first) x post);
      [exact Hgap | exact Hpre | lra].
Qed.

Lemma pause_within_one_gap_witness :
  exists app' trace pre x post,
    [empty_frame 2.5; empty_frame 5.2; empty_frame 5.7] = pre ++ x :: post
    /\ face_detection_loop started
         (map Grabbed (empty_frame 0 :: [empty_frame 2.5; empty_frame 5.2; empty_frame 5.7]))
       = Ok (app', trace)
    /\ actions trace
       = repeat None (S (List.length pre)) ++ Some Pause :: repeat None (List.length post)
    /\ (current_time (empty_frame 0) + 5 <= current_time x)%Q
    /\ (current_time x < current_time (empty_frame 0) + 5 + 3)%Q.
Proof.
  apply (pause_within_one_gap started (empty_frame 0)
           [empty_frame 2.5; empty_frame 5.2; empty_frame 5.7] 3%Q).
  - exact started_in_session.
  - reflexivity.
  - reflexivity.
  - repeat constructor.
  - cbn [max_gap empty_frame current_time]. repeat split; lra.
  - exists (empty_frame 5.7). split; [right; right; left; reflexivity |].
    cbn [empty_frame current_time]. lra.
Defined.

(** ** The completion dialog, with the detection thread seen pass by pass *)

Lemma calls_app (l1 l2 : list Effect) :
  calls (l1 ++ l2) = (calls l1 + calls l2)%nat.
Proof.
  unfold calls. rewrite !count_app. lia.
Qed.

Lemma handle_presence_one_call (app app' : DeepWorkTimer) (present : bool) (now : Q)
      (effs : list Effect) :
  handle_presence app present now = Ok (app', effs) -> (calls effs <= 1)%nat.
Proof.
  unfold handle_presence, calls, count.
  destruct app as [rs tw cam th tt st fd nf ls pv]; simpl.
  destruct tw as [w |].
  - destruct present; split_handler ls nf w now;
      intros H; inversion H; subst; simpl; lia.
  - destruct present, nf as [start |]; simpl;
      try destruct (Qle_bool 5 (now - start)); simpl;
      intros H; inversion H; subst; simpl; lia.
Qed.

Lemma loop_body_pass (app : DeepWorkTimer) (p : Poll) :
  timer_window app <> None ->
  exists app' effs,
    loop_body app p = Ok (app', effs)
    /\ timer_window app' <> None
    /\ count is_completion effs = 0%nat
    /\ stop_threads app' = stop_threads app
    /\ remaining app' = remaining app
    /\ (calls effs <= 1)%nat.
Proof.
  intros Hw.
  assert (Hidle : exists app' effs,
             Ok (app, @nil Effect) = Ok (app', effs)
             /\ timer_window app' <> None
             /\ count is_completion effs = 0%nat
             /\ stop_threads app' = stop_threads app
             /\ remaining app' = remaining app
             /\ (calls effs <= 1)%nat).
  { exists app, []. repeat split; [exact Hw | unfold calls, count; simpl; lia]. }
  unfold loop_body.
  destruct (camera app); [| exact Hidle].
  destruct p as [| | s]; [exact Hidle | exact Hidle |].
  destruct (face_present_total (frame s) (faces s)) as [b Hb]. rewrite Hb.
  cbn [bind]. unfold preview.
  destruct (timer_window app) as [w |] eqn:Htw; [| congruence].
  rewrite <- Htw in Hw.
  destruct (handle_presence_total app b (current_time s) Hw) as (app' & effs & H & Hw' & _).
  exists app', effs.
  destruct (handle_presence_no_completion app app' b (current_time s) effs H) as (Hc & Hr).
  pose proof (handle_presence_stop_threads app app' b (current_time s) effs H) as Hs.
  pose proof (handle_presence_one_call app app' b (current_time s) effs H) as Hcalls.
  destruct (show_webcam_preview app); cbn [bind]; rewrite H;
    (split; [reflexivity | split; [exact Hw' | split; [exact Hc | split; [exact Hs |]]]]);
    split; assumption.
Qed.

Lemma callback_step (app : DeepWorkTimer) :
  timer_window app <> None ->
  0 <= remaining app ->
  timer_window (fst (update_timer app)) <> None
  /\ 0 <= remaining (fst (update_timer app))
  /\ calls (snd (update_timer app)) = 0%nat
  /\ ((count is_completion (snd (update_timer app)) = 0%nat
       /\ stop_threads (fst (update_timer app)) = stop_threads app)
      \/ (count is_completion (snd (update_timer app)) = 1%nat
          /\ stop_threads (fst (update_timer app)) = true
          /\ remaining (fst (update_timer app)) = 0)).
Proof.
  unfold update_timer, remaining.
  destruct (stop_threads app) eqn:Hstop;
    [intros Hw Hr; cbn [fst snd]; repeat split; try assumption; left; split; auto |].
  destruct (timer_window app) as [w |] eqn:Htw; [| congruence]. intros _ Hr.
  assert (Hw1 : 0 <= TimerWindow.remaining_seconds
                       (if negb (TimerWindow.is_paused w) then TimerWindow.tick w else w)).
  { unfold TimerWindow.tick.
    destruct (TimerWindow.is_paused w); simpl; [exact Hr |].
    destruct (Z.gtb_spec (TimerWindow.remaining_seconds w) 0); simpl; lia. }
  destruct (Z.leb_spec
              (TimerWindow.remaining_seconds
                 (if negb (TimerWindow.is_paused w) then TimerWindow.tick w else w)) 0)
    as [Hzero | Hpos]; cbn [fst snd timer_window set_timer_window set_stop_threads
                             stop_threads].
  - split; [discriminate | split; [exact Hw1 | split; [reflexivity |]]].
    right. split; [reflexivity | split; [reflexivity | lia]].
  - split; [discriminate | split; [exact Hw1 | split; [reflexivity |]]].
    left. split; [reflexivity | exact Hstop].
Qed.

Lemma after_stop (more : list ThreadEvent) :
  forall r,
    stop_threads (app_of r) = true ->
    timer_window (app_of r) <> None ->
    exists r' trace,
      thread_session r more = Ok (r', trace)
      /\ timer_window (app_of r') <> None
      /\ stop_threads (app_of r') = true
      /\ remaining (app_of r') = remaining (app_of r)
      /\ count is_completion (List.concat trace) = 0%nat
      /\ (calls (List.concat trace) <= (if in_flight r then 1 else 0))%nat
      /\ (in_flight r = false -> r' = r /\ trace = repeat [] (List.length more)).
Proof.
  induction more as [| e more IH]; intros r Hstop Hw.
  - exists r, []. cbn [thread_session List.concat List.length repeat].
    split; [reflexivity | split; [exact Hw | split; [exact Hstop | split; [reflexivity |]]]].
    split; [reflexivity | split; [| intros _; split; reflexivity]].
    unfold calls, count. simpl. destruct (in_flight r); lia.
  - assert (Hquiet : thread_step r e = Ok (r, [])
                     \/ exists p app' effs,
                          e = PassEnds p /\ in_flight r = true
                          /\ loop_body (app_of r) p = Ok (app', effs)).
    { destruct e as [| p |]; cbn [thread_step].
      - left. rewrite Hstop.
        destruct (face_detection_thread (app_of r)), (in_flight r); reflexivity.
      - destruct (in_flight r) eqn:Hfl; [| left; reflexivity].
        destruct (loop_body_pass (app_of r) p Hw) as (app' & effs & Hb & _).
        right. exists p, app', effs. auto.
      - left. unfold update_timer. rewrite Hstop. destruct r; reflexivity. }
    destruct Hquiet as [Hs | (p & app' & effs & -> & Hfl & Hb)].
    + destruct (IH r Hstop Hw) as (r' & trace & Hrun & K0 & K1 & K2 & K3 & K4 & K5).
      exists r', ([] :: trace). cbn [thread_session]. rewrite Hs. cbn [bind fst snd].
      rewrite Hrun. cbn [bind fst snd].
      split; [reflexivity | split; [exact K0 | split; [exact K1 | split; [exact K2 |]]]].
      split; [exact K3 | split; [exact K4 |]].
      intros Hfl. destruct (K5 Hfl) as (-> & ->). split; reflexivity.
    + destruct (loop_body_pass (app_of r) p Hw)
        as (a & effs' & Hb' & Hw' & Hc & Hs & Hr & Hcalls).
      rewrite Hb in Hb'. inversion Hb'; subst a effs'.
      destruct (IH {| app_of := app'; in_flight := false |})
        as (r' & trace & Hrun & K0 & K1 & K2 & K3 & K4 & K5);
        [cbn [app_of]; congruence | exact Hw' |].
      destruct (K5 eq_refl) as (-> & ->).
      eexists. eexists. cbn [thread_session thread_step]. rewrite Hfl, Hb.
      cbn [bind fst snd]. rewrite Hrun. cbn [bind fst snd].
      split; [reflexivity |]. cbn [app_of List.concat].
      rewrite count_app, calls_app, concat_repeat_nil, Hc.
      split; [exact Hw' | split; [congruence | split; [exact Hr | split; [reflexivity |]]]].
      split; [| discriminate].
      unfold calls at 2. unfold count. simpl. lia.
Qed.

Lemma thread_session_completion (events : list ThreadEvent) :
  forall r,
    timer_window (app_of r) <> None ->
    0 <= remaining (app_of r) ->
    exists r' trace,
      thread_session r events = Ok (r', trace)
      /\ timer_window (app_of r') <> None
      /\ ((count is_completion (List.concat trace) = 0%nat
           /\ stop_threads (app_of r') = stop_threads (app_of r))
          \/ (count is_completion (List.concat trace) = 1%nat
              /\ stop_threads (app_of r') = true
              /\ remaining (app_of r') = 0)).
Proof.
  induction events as [| e events IH]; intros r Hw Hr.
  - exists r, []. cbn. split; [reflexivity | split; [exact Hw | left; split; reflexivity]].
  - destruct e as [| p |].
    + (* a pass begins: the state is as it was *)
      assert (Hs : exists fl, thread_step r PassBegins
                              = Ok ({| app_of := app_of r; in_flight := fl |}, [])).
      { cbn [thread_step].
        destruct (face_detection_thread (app_of r)), (in_flight r) eqn:Hfl,
          (stop_threads (app_of r));
          try (exists true; destruct r; cbn in *; subst; reflexivity);
          try (exists false; destruct r; cbn in *; subst; reflexivity). }
      destruct Hs as (fl & Hs).
      destruct (IH {| app_of := app_of r; in_flight := fl |} Hw Hr)
        as (r' & trace & Hrun & Hw' & Hcases).
      exists r', ([] :: trace). cbn [thread_session]. rewrite Hs. cbn [bind fst snd].
      rewrite Hrun. cbn [bind fst snd].
      split; [reflexivity | split; [exact Hw' | exact Hcases]].
    + (* a pass ends *)
      cbn [thread_session thread_step].
      destruct (in_flight r) eqn:Hfl.
      * destruct (loop_body_pass (app_of r) p Hw)
          as (a & effs & Hb & Hw' & Hc & Hs & Hrem & _).
        rewrite Hb. cbn [bind fst snd].
        destruct (IH {| app_of := a; in_flight := false |} Hw')
          as (r' & trace & Hrun & Hw'' & Hcases); [cbn [app_of]; lia |].
        rewrite Hrun. cbn [bind fst snd].
        eexists. eexists. split; [reflexivity | split; [exact Hw'' |]].
        cbn [List.concat app_of] in *. rewrite count_app, Hc. cbn [Nat.add].
        rewrite <- Hs. exact Hcases.
      * cbn [bind fst snd].
        destruct (IH r Hw Hr) as (r' & trace & Hrun & Hw' & Hcases).
        rewrite Hrun. cbn [bind fst snd].
        eexists. eexists. split; [reflexivity | split; [exact Hw' | exact Hcases]].
    + (* the countdown callback *)
      cbn [thread_session thread_step bind fst snd].
      destruct (callback_step (app_of r) Hw Hr) as (Hw1 & Hr1 & _ & Hcb).
      destruct Hcb as [(Hc & Hs) | (Hc & Hs & Hzero)].
      * destruct (IH {| app_of := fst (update_timer (app_of r)); in_flight := in_flight r |}
                    Hw1 Hr1) as (r' & trace & Hrun & Hw' & Hcases).
        rewrite Hrun. cbn [bind fst snd].
        eexists. eexists. split; [reflexivity | split; [exact Hw' |]].
        cbn [List.concat app_of] in *. rewrite count_app, Hc. cbn [Nat.add].
        rewrite <- Hs. exact Hcases.
      * destruct (after_stop events
                    {| app_of := fst (update_timer (app_of r)); in_flight := in_flight r |}
                    Hs Hw1) as (r' & trace & Hrun & Hw' & K1 & K2 & K3 & _).
        rewrite Hrun. cbn [bind fst snd].
        eexists. eexists. split; [reflexivity |].
        split; [exact Hw' |].
        right. cbn [List.concat]. rewrite count_app, Hc, K3.
        split; [reflexivity | split; [exact K1 |]].
        rewrite K2. exact Hzero.
Qed.

(** X5. In a session started with 1 to 999 minutes, whatever the camera
    does and however the passes of the detection loop interleave with the
    countdown callbacks: the completion dialog is shown at most once; when
    it has been shown the countdown stands at zero and [stop_threads] is
    set; and whatever happens afterwards, both stay so, the dialog is not
    shown again, and [pause] or [resume] is called at most once more, by a
    pass that was already in flight (if none was, nothing changes at
    all). *)
Theorem completion_shown_once
        (minutes : Z) (camera_opens : bool) (events : list ThreadEvent) :
  1 <= minutes <= 999 ->
  exists r' trace,
    thread_session (launched (Some minutes) camera_opens) events = Ok (r', trace)
    /\ (count is_completion (List.concat trace) <= 1)%nat
    /\ (count is_completion (List.concat trace) = 1%nat ->
        remaining (app_of r') = 0
        /\ stop_threads (app_of r') = true
        /\ forall more,
             exists r'' trace',
               thread_session r' more = Ok (r'', trace')
               /\ remaining (app_of r'') = 0
               /\ stop_threads (app_of r'') = true
               /\ count is_completion (List.concat trace') = 0%nat
               /\ (calls (List.concat trace') <= 1)%nat
               /\ (in_flight r' = false ->
                   r'' = r' /\ trace' = repeat [] (List.length more))).
Proof.
  intros Hm.
  destruct (start_timer_accepted minutes camera_opens Hm) as (w & Hw & _ & Hrem & _).
  assert (Hw0 : timer_window (app_of (launched (Some minutes) camera_opens)) <> None)
    by (cbn [launched app_of]; congruence).
  assert (Hr0 : 0 <= remaining (app_of (launched (Some minutes) camera_opens))).
  { unfold remaining. cbn [launched app_of]. rewrite Hw, Hrem.
    destruct camera_opens; lia. }
  destruct (thread_session_completion events _ Hw0 Hr0) as (r' & trace & Hrun & Hw' & Hcases).
  exists r', trace. split; [exact Hrun |].
  destruct Hcases as [(Hc & _) | (Hc & Hstop & Hzero)]; rewrite Hc.
  - split; [lia | discriminate].
  - split; [lia |]. intros _.
    split; [exact Hzero | split; [exact Hstop |]].
    intros more.
    destruct (after_stop more r' Hstop Hw') as (r'' & trace' & Hmore & _ & K1 & K2 & K3 & K4 & K5).
    exists r'', trace'.
    split; [exact Hmore | split; [congruence | split; [exact K1 | split; [exact K3 |]]]].
    split; [destruct (in_flight r'); lia | exact K5].
Qed.

Lemma completion_shown_once_witness :
  exists r' trace,
    thread_session (launched (Some 1) true)
      ([PassBegins; PassEnds (Grabbed (empty_frame 0)); PassBegins]
         ++ repeat CallbackFires 70 ++ [PassEnds (Grabbed (empty_frame 58))])
    = Ok (r', trace)
    /\ (count is_completion (List.concat trace) <= 1)%nat
    /\ (count is_completion (List.concat trace) = 1%nat ->
        remaining (app_of r') = 0
        /\ stop_threads (app_of r') = true
        /\ forall more,
             exists r'' trace',
               thread_session r' more = Ok (r'', trace')
               /\ remaining (app_of r'') = 0
               /\ stop_threads (app_of r'') = true
               /\ count is_completion (List.concat trace') = 0%nat
               /\ (calls (List.concat trace') <= 1)%nat
               /\ (in_flight r' = false ->
                   r'' = r' /\ trace' = repeat [] (List.length more))).
Proof.
  apply (completion_shown_once 1 true). lia.
Defined.

(** A pass that is in flight when the countdown completes still acts: in
    a one-minute session with an absence pending since time 0, the pass
    that began before the last callback pauses the timer after the
    completion dialog has been shown. *)
Example pause_after_completion :
  exists r' trace,
    thread_session (launched (Some 1) true)
      ([PassBegins; PassEnds (Grabbed (empty_frame 0)); PassBegins]
         ++ repeat CallbackFires 59 ++ [PassEnds (Grabbed (empty_frame 58))])
    = Ok (r', trace)
    /\ count is_completion (List.concat trace) = 1%nat
    /\ last trace [] = [CallPause; After 0 (NotificationPopup paused_message)]
    /\ paused (app_of r') = true
    /\ stop_threads (app_of r') = true.
Proof. eexists. eexists. split; [vm_compute; reflexivity | repeat split]. Qed.
